(** * Incremental ingestion engine of the SFTP monitor

    A shallow embedding of [src/incremental_updater.py] (class
    [IncrementalUpdater]) and the properties of its checkpointed,
    incremental ingestion of per-host ledgers and received-file reports.

    Conventions of the embedding.
    - Python [str] is [string]; a character is a code point below 256.
    - Python [None] is [None] of an [option]; a Python exception is the
      [Raise] branch of [result].
    - The SQLite store is a record of tables.  A table with a primary key is
      a [gmap] from the key, a table whose rows are only appended is a list
      in insertion order.  Columns the store fills by itself ([id],
      [created_at], [updated_at]) are not read by the engine and are left
      out.  The four tables the constructor creates are always there; the
      [servers] and [metadata] tables are created by the application
      ([init_db] of [src/app_collector.py]) and may be missing.
    - The file system is a map from host names to the content of the host's
      [logs] directory; the clock is an argument. *)

From Stdlib Require Import Decimal DecimalString DecimalPos DecimalN.
From Stdlib Require Import ZArith NArith Ascii String List Bool Lia.
From stdpp Require Import gmap strings list fin_maps.

Local Open Scope string_scope.
Local Open Scope Z_scope.

(** ** Exceptions *)

Inductive exn : Type :=
  | ValueError
  | OverflowError
  | IndexError
  | OperationalError.

Inductive result (A : Type) : Type :=
  | Ok (a : A)
  | Raise (e : exn).

Arguments Ok {A} a.
Arguments Raise {A} e.

#[global] Instance result_ret : MRet result := λ A a, Ok a.
#[global] Instance result_bind : MBind result :=
  λ A B f m, match m with Ok a => f a | Raise e => Raise e end.

(** ** Python text primitives *)

Module Py.

Definition ord (c : ascii) : N := N_of_ascii c.

(** [str.isspace] on one character. *)
Definition isspace (c : ascii) : bool :=
  let n := ord c in
  ((9 <=? n) && (n <=? 13) || (28 <=? n) && (n <=? 32)
   || (n =? 133) || (n =? 160))%N.

Definition isdigit (c : ascii) : bool :=
  let n := ord c in ((48 <=? n) && (n <=? 57))%N.

Definition digit_val (c : ascii) : Z := Z.of_N (ord c) - 48.

Definition lower_char (c : ascii) : ascii :=
  let n := ord c in
  if ((65 <=? n) && (n <=? 90)
      || (192 <=? n) && (n <=? 222) && negb (n =? 215))%N
  then ascii_of_N (n + 32) else c.

(** [s.lower()] *)
Fixpoint lower (s : string) : string :=
  match s with
  | EmptyString => EmptyString
  | String c s' => String (lower_char c) (lower s')
  end.

(** [s.lstrip(chars)], [s.rstrip(chars)] with the set of characters given
    as a predicate; [s.strip()] removes white space on both sides. *)
Fixpoint lstrip_with (p : ascii -> bool) (s : string) : string :=
  match s with
  | EmptyString => EmptyString
  | String c s' => if p c then lstrip_with p s' else s
  end.

Fixpoint rstrip_with (p : ascii -> bool) (s : string) : string :=
  match s with
  | EmptyString => EmptyString
  | String c s' =>
      match rstrip_with p s' with
      | EmptyString => if p c then EmptyString else String c EmptyString
      | r => String c r
      end
  end.

Definition strip (s : string) : string :=
  rstrip_with isspace (lstrip_with isspace s).

(** White space as [int] and [float] remove it around a number: the six
    characters of C's [isspace] in a string of ASCII characters only, and
    all of [str.isspace] otherwise. *)
Definition isspace_c (c : ascii) : bool :=
  let n := ord c in ((9 <=? n) && (n <=? 13) || (n =? 32))%N.

Fixpoint isascii (s : string) : bool :=
  match s with
  | EmptyString => true
  | String c s' => (ord c <? 128)%N && isascii s'
  end.

Definition strip_number (s : string) : string :=
  let p := if isascii s then isspace_c else isspace in
  rstrip_with p (lstrip_with p s).

Definition rstrip_chars (chars : string) (s : string) : string :=
  rstrip_with (fun c => existsb (Ascii.eqb c) (list_ascii_of_string chars)) s.

(** [s.startswith(p)] *)
Fixpoint startswith (p s : string) : bool :=
  match p, s with
  | EmptyString, _ => true
  | String a p', String b s' => Ascii.eqb a b && startswith p' s'
  | String _ _, EmptyString => false
  end.

(** [sub in s] *)
Fixpoint contains (sub s : string) : bool :=
  startswith sub s ||
  match s with
  | EmptyString => false
  | String _ s' => contains sub s'
  end.

(** [s.split(sep)] for a non-empty [sep]: the occurrences of [sep] are
    found from the left and do not overlap; [skip] counts the characters of
    a found occurrence that are still to be passed over. *)
Fixpoint split_from (sep : string) (skip : nat) (s : string) : list string :=
  match s with
  | EmptyString => [EmptyString]
  | String c s' =>
      match skip with
      | S k => split_from sep k s'
      | O =>
          if startswith sep s
          then EmptyString :: split_from sep (Nat.pred (String.length sep)) s'
          else match split_from sep O s' with
               | h :: t => String c h :: t
               | [] => [String c EmptyString]
               end
      end
  end.

Definition split (sep s : string) : list string := split_from sep O s.

(** [s.replace(old, new)] for a non-empty [old]. *)
Fixpoint replace_from (old new : string) (skip : nat) (s : string) : string :=
  match s with
  | EmptyString => EmptyString
  | String c s' =>
      match skip with
      | S k => replace_from old new k s'
      | O =>
          if startswith old s
          then new +:+ replace_from old new (Nat.pred (String.length old)) s'
          else String c (replace_from old new O s')
      end
  end.

Definition replace (old new s : string) : string := replace_from old new O s.

(** A non-empty string is true, [None] and the empty string are false. *)
Definition truthy (s : option string) : bool :=
  match s with
  | Some (String _ _) => true
  | _ => false
  end.

(** *** Numbers *)

(** [int(s)] and [float(s)] accept an underscore between two digits and
    nowhere else; the underscores are removed before the digits are read. *)
Fixpoint drop_underscores (prev : ascii) (s : string) : option string :=
  match s with
  | EmptyString => if Ascii.eqb prev "_" then None else Some EmptyString
  | String c s' =>
      if Ascii.eqb c "_" then
        if isdigit prev then drop_underscores c s' else None
      else if Ascii.eqb prev "_" && negb (isdigit c) then None
      else option_map (String c) (drop_underscores c s')
  end.

(** The longest prefix of decimal digits: its value after the digits
    already read ([acc]), how many digits it has, and the rest. *)
Fixpoint digits (acc : Z) (n : Z) (s : string) : Z * Z * string :=
  match s with
  | String c s' =>
      if isdigit c then digits (10 * acc + digit_val c) (n + 1) s'
      else (acc, n, s)
  | EmptyString => (acc, n, s)
  end.

(** An optional sign: [true] for a minus. *)
Definition sign (s : string) : bool * string :=
  match s with
  | String "-" s' => (true, s')
  | String "+" s' => (false, s')
  | _ => (false, s)
  end.

Definition apply_sign (neg : bool) (z : Z) : Z := if neg then - z else z.

(** [int(s)] for a string, base ten. *)
Definition int_of_str (s : string) : result Z :=
  match drop_underscores "000" (strip_number s) with
  | None => Raise ValueError
  | Some t =>
      let '(neg, t) := sign t in
      let '(v, n, rest) := digits 0 0 t in
      if (0 <? n) && String.eqb rest EmptyString
      then Ok (apply_sign neg v) else Raise ValueError
  end.

(** A Python float: a finite binary64 value [m * 2^e] with [|m| < 2^53]
    and [-1074 <= e <= 971], an infinity, or not-a-number. *)
Inductive pyfloat : Type :=
  | Finite (m e : Z)
  | Inf (neg : bool)
  | NaN.

Definition round_half_even (n d : Z) : Z :=
  let q := n / d in
  let r := n mod d in
  if 2 * r <? d then q
  else if d <? 2 * r then q + 1
  else if Z.even q then q else q + 1.

(** The binary64 value nearest to [n / d], ties to even ([0 <= n], [0 < d]). *)
Definition binary64_of_ratio (n d : Z) : pyfloat :=
  if n =? 0 then Finite 0 0
  else
    let l := Z.log2 n - Z.log2 d in
    let above := if 0 <=? l then d * 2 ^ l <=? n else d <=? n * 2 ^ (- l) in
    let fl := if above then l else l - 1 in
    let e := Z.max (fl - 52) (-1074) in
    let m := if 0 <=? e then round_half_even n (d * 2 ^ e)
             else round_half_even (n * 2 ^ (- e)) d in
    let '(m, e) := if m =? 2 ^ 53 then (2 ^ 52, e + 1) else (m, e) in
    if 971 <? e then Inf false else Finite m e.

Definition fneg (neg : bool) (f : pyfloat) : pyfloat :=
  if neg then
    match f with
    | Finite m e => Finite (- m) e
    | Inf b => Inf (negb b)
    | NaN => NaN
    end
  else f.

(** The exponent part of a decimal literal: [e], a sign and digits. *)
Definition exponent (s : string) : option Z :=
  match s with
  | EmptyString => Some 0
  | String "e" s' =>
      let '(neg, t) := sign s' in
      let '(v, n, rest) := digits 0 0 t in
      if (0 <? n) && String.eqb rest EmptyString
      then Some (apply_sign neg v) else None
  | _ => None
  end.

(** [float(s)] for a string. *)
Definition float_of_str (s : string) : result pyfloat :=
  match drop_underscores "000" (lower (strip_number s)) with
  | None => Raise ValueError
  | Some t =>
      let '(neg, t) := sign t in
      if String.eqb t "inf" || String.eqb t "infinity" then Ok (Inf neg)
      else if String.eqb t "nan" then Ok NaN
      else
        let '(i, ni, t) := digits 0 0 t in
        let '(v, nf, t) :=
          match t with
          | String "." t' => digits i 0 t'
          | _ => (i, 0, t)
          end in
        if 0 <? ni + nf then
          match exponent t with
          | Some x =>
              let p := x - nf in
              Ok (fneg neg (if 0 <=? p then binary64_of_ratio (v * 10 ^ p) 1
                            else binary64_of_ratio v (10 ^ (- p))))
          | None => Raise ValueError
          end
        else Raise ValueError
  end.

(** [f * 2^k] in binary64, for [0 <= k]: exact unless it overflows. *)
Definition fmul_pow2 (f : pyfloat) (k : Z) : pyfloat :=
  match f with
  | Finite m e =>
      if m =? 0 then f
      else if 1024 <=? Z.log2 (Z.abs m) + 1 + e + k then Inf (m <? 0)
      else Finite m (e + k)
  | _ => f
  end.

(** [int(f)] for a float: truncation towards zero. *)
Definition int_of_float (f : pyfloat) : result Z :=
  match f with
  | Finite m e => Ok (if 0 <=? e then m * 2 ^ e else Z.quot m (2 ^ (- e)))
  | Inf _ => Raise OverflowError
  | NaN => Raise ValueError
  end.

End Py.

(** ** The size normalizer: [IncrementalUpdater.parse_file_size] *)

(** The body of the [try] block. *)
Definition parse_file_size_try (size_str : string) : result Z :=
  let size_str := Py.strip (Py.lower size_str) in
  if Py.contains "kb" size_str then
    f ← Py.float_of_str (Py.strip (Py.replace "kb" "" size_str));
    Py.int_of_float (Py.fmul_pow2 f 10)
  else if Py.contains "mb" size_str then
    f ← Py.float_of_str (Py.strip (Py.replace "mb" "" size_str));
    Py.int_of_float (Py.fmul_pow2 (Py.fmul_pow2 f 10) 10)
  else if Py.contains "gb" size_str then
    f ← Py.float_of_str (Py.strip (Py.replace "gb" "" size_str));
    Py.int_of_float (Py.fmul_pow2 (Py.fmul_pow2 (Py.fmul_pow2 f 10) 10) 10)
  else if Py.contains "bytes" size_str then
    Py.int_of_str (Py.strip (Py.replace "bytes" "" size_str))
  else
    f ← Py.float_of_str size_str; Py.int_of_float f.

Definition parse_file_size (size_str : option string) : Z :=
  if Py.truthy size_str then
    match parse_file_size_try (default EmptyString size_str) with
    | Ok n => n
    | Raise _ => 0
    end
  else 0.


(** ** The store *)

(** A row of [file_exchanges].  The text columns hold what the ledger row
    gave, [None] being SQL's NULL. *)
Record exchange_row : Type := {
  fe_server_name : string;
  fe_timestamp : option string;
  fe_hostname : option string;
  fe_action : option string;
  fe_target_servers : option string;
  fe_filename : option string;
  fe_status : option string;
  fe_file_size : Z
}.

(** A row of [received_files]; [file_size] keeps the text form. *)
Record received_row : Type := {
  rf_server_name : string;
  rf_filename : string;
  rf_source_server : string;
  rf_received_date : string;
  rf_file_size : string
}.

(** A row of [file_checkpoints], keyed by [server_name]. *)
Record checkpoint : Type := {
  last_history_line : Z;
  last_received_count : Z;
  last_processed_date : option string;
  total_processed_exchanges : Z;
  total_processed_received : Z
}.

(** A row of [daily_activity], keyed by [(date, server_name)]. *)
Record daily_row : Type := {
  files_sent : Z;
  files_received : Z;
  total_size_sent : Z;
  total_size_received : Z
}.

(** A row of [servers], keyed by [name]. *)
Record server_row : Type := {
  sv_ip : string;
  sv_sent : Z;
  sv_received : Z;
  sv_last_update : option string
}.

Record db : Type := {
  file_exchanges : list exchange_row;
  received_files : list received_row;
  file_checkpoints : gmap string checkpoint;
  daily_activity : gmap (string * string) daily_row;
  servers : option (gmap string server_row);
  metadata : option (gmap string string)
}.

Definition set_file_exchanges (t : list exchange_row) (conn : db) : db :=
  {| file_exchanges := t;
     received_files := received_files conn;
     file_checkpoints := file_checkpoints conn;
     daily_activity := daily_activity conn;
     servers := servers conn;
     metadata := metadata conn |}.

Definition set_received_files (t : list received_row) (conn : db) : db :=
  {| file_exchanges := file_exchanges conn;
     received_files := t;
     file_checkpoints := file_checkpoints conn;
     daily_activity := daily_activity conn;
     servers := servers conn;
     metadata := metadata conn |}.

Definition set_file_checkpoints (t : gmap string checkpoint) (conn : db) : db :=
  {| file_exchanges := file_exchanges conn;
     received_files := received_files conn;
     file_checkpoints := t;
     daily_activity := daily_activity conn;
     servers := servers conn;
     metadata := metadata conn |}.

Definition set_daily_activity (t : gmap (string * string) daily_row)
    (conn : db) : db :=
  {| file_exchanges := file_exchanges conn;
     received_files := received_files conn;
     file_checkpoints := file_checkpoints conn;
     daily_activity := t;
     servers := servers conn;
     metadata := metadata conn |}.

Definition set_servers (t : gmap string server_row) (conn : db) : db :=
  {| file_exchanges := file_exchanges conn;
     received_files := received_files conn;
     file_checkpoints := file_checkpoints conn;
     daily_activity := daily_activity conn;
     servers := Some t;
     metadata := metadata conn |}.

Definition set_metadata (t : gmap string string) (conn : db) : db :=
  {| file_exchanges := file_exchanges conn;
     received_files := received_files conn;
     file_checkpoints := file_checkpoints conn;
     daily_activity := daily_activity conn;
     servers := servers conn;
     metadata := Some t |}.

(** Equality of two column values as a UNIQUE constraint sees it: a NULL
    differs from every value, another NULL included. *)
Definition unique_eq (a b : option string) : bool :=
  match a, b with
  | Some x, Some y => String.eqb x y
  | _, _ => false
  end.

(** [UNIQUE(server_name, timestamp, filename, action)] *)
Definition exchange_conflict (r s : exchange_row) : bool :=
  String.eqb (fe_server_name r) (fe_server_name s)
  && unique_eq (fe_timestamp r) (fe_timestamp s)
  && unique_eq (fe_filename r) (fe_filename s)
  && unique_eq (fe_action r) (fe_action s).

(** [INSERT OR IGNORE INTO file_exchanges] *)
Definition insert_or_ignore_exchange (r : exchange_row) (conn : db) : db :=
  if existsb (exchange_conflict r) (file_exchanges conn) then conn
  else set_file_exchanges (file_exchanges conn ++ [r]) conn.

(** [UNIQUE(server_name, filename, received_date)] *)
Definition received_conflict (r s : received_row) : bool :=
  String.eqb (rf_server_name r) (rf_server_name s)
  && String.eqb (rf_filename r) (rf_filename s)
  && String.eqb (rf_received_date r) (rf_received_date s).

(** [INSERT OR IGNORE INTO received_files] *)
Definition insert_or_ignore_received (r : received_row) (conn : db) : db :=
  if existsb (received_conflict r) (received_files conn) then conn
  else set_received_files (received_files conn ++ [r]) conn.

(** ** [IncrementalUpdater] *)

(** [__init__] and [init_incremental_tables]: the four tables are dropped
    and created again. *)
Definition init_incremental_tables (conn : db) : db :=
  {| file_exchanges := [];
     received_files := [];
     file_checkpoints := ∅;
     daily_activity := ∅;
     servers := servers conn;
     metadata := metadata conn |}.

Definition IncrementalUpdater (conn : db) : db := init_incremental_tables conn.

(** [get_checkpoint] *)
Definition get_checkpoint (conn : db) (server_name : string) : checkpoint :=
  match file_checkpoints conn !! server_name with
  | Some checkpoint => checkpoint
  | None =>
      {| last_history_line := 0;
         last_received_count := 0;
         last_processed_date := None;
         total_processed_exchanges := 0;
         total_processed_received := 0 |}
  end.

(** [update_checkpoint]; [now] is [datetime.now().isoformat()]. *)
Definition update_checkpoint (conn : db) (now : string) (server_name : string)
    (history_lines received_count total_exchanges total_received : Z) : db :=
  set_file_checkpoints
    (<[server_name :=
        {| last_history_line := history_lines;
           last_received_count := received_count;
           last_processed_date := Some now;
           total_processed_exchanges := total_exchanges;
           total_processed_received := total_received |}]>
       (file_checkpoints conn))
    conn.

(** [update_daily_activity]: an upsert on [(date, server_name)] for
    ['sent'] and for ['received'], nothing for any other action. *)
Definition update_daily_activity (conn : db) (date server_name action : string)
    (file_size : Z) : db :=
  if String.eqb action "sent" then
    set_daily_activity
      (<[(date, server_name) :=
          match daily_activity conn !! (date, server_name) with
          | None =>
              {| files_sent := 1; files_received := 0;
                 total_size_sent := file_size; total_size_received := 0 |}
          | Some d =>
              {| files_sent := files_sent d + 1;
                 files_received := files_received d;
                 total_size_sent := total_size_sent d + file_size;
                 total_size_received := total_size_received d |}
          end]> (daily_activity conn))
      conn
  else if String.eqb action "received" then
    set_daily_activity
      (<[(date, server_name) :=
          match daily_activity conn !! (date, server_name) with
          | None =>
              {| files_sent := 0; files_received := 1;
                 total_size_sent := 0; total_size_received := file_size |}
          | Some d =>
              {| files_sent := files_sent d;
                 files_received := files_received d + 1;
                 total_size_sent := total_size_sent d;
                 total_size_received := total_size_received d + file_size |}
          end]> (daily_activity conn))
      conn
  else conn.

(** *** The ledger parser: [process_history_file_incremental] *)

(** A ledger row as [csv.DictReader] yields it: a dict from the column
    names of the header to the fields, [None] for a column the row is too
    short for. *)
Definition dict_get (row : gmap string (option string)) (key default : string)
    : option string :=
  match row !! key with
  | Some v => v
  | None => Some default
  end.

Definition is_str (s : option string) (lit : string) : bool :=
  match s with
  | Some x => String.eqb x lit
  | None => false
  end.

(** [s.split(sep)[0]]: a split has at least one part. *)
Definition first_part (sep s : string) : string :=
  hd EmptyString (Py.split sep s).

Definition exchange_of_row (server_name : string)
    (row : gmap string (option string)) : exchange_row :=
  {| fe_server_name := server_name;
     fe_timestamp := dict_get row "timestamp" "";
     fe_hostname := dict_get row "hostname" "";
     fe_action := dict_get row "action" "";
     fe_target_servers := dict_get row "target_servers" "";
     fe_filename := dict_get row "file" "";
     fe_status := dict_get row "status" "";
     fe_file_size := parse_file_size (dict_get row "size" "0") |}.

(** The variables of the loop over the rows. *)
Record history_scan : Type := {
  hs_conn : db;
  hs_new_entries : Z;
  hs_current_line : Z
}.

(** One turn of [for row in reader]. *)
Definition history_row (server_name : string) (last_processed_line : Z)
    (st : history_scan) (row : gmap string (option string)) : history_scan :=
  let current_line := hs_current_line st + 1 in
  if current_line <=? last_processed_line then
    {| hs_conn := hs_conn st;
       hs_new_entries := hs_new_entries st;
       hs_current_line := current_line |}
  else
    let r := exchange_of_row server_name row in
    let conn := insert_or_ignore_exchange r (hs_conn st) in
    let new_entries := hs_new_entries st + 1 in
    let conn :=
      if Py.truthy (fe_timestamp r) && is_str (fe_action r) "sent" then
        update_daily_activity conn
          (first_part " " (default EmptyString (fe_timestamp r)))
          server_name "sent" (fe_file_size r)
      else conn in
    {| hs_conn := conn;
       hs_new_entries := new_entries;
       hs_current_line := current_line |}.

(** [history_file] is the ledger at [history_file_path], [None] when the
    path does not exist.  The result is the store and
    [(new_entries, current_line)]. *)
Definition process_history_file_incremental (conn : db) (server_name : string)
    (history_file : option (list (gmap string (option string))))
    : db * (Z * Z) :=
  match history_file with
  | None => (conn, (0, 0))
  | Some rows =>
      let last_processed_line :=
        last_history_line (get_checkpoint conn server_name) in
      let st :=
        fold_left (history_row server_name last_processed_line) rows
          {| hs_conn := conn; hs_new_entries := 0; hs_current_line := 0 |} in
      (hs_conn st, (hs_new_entries st, hs_current_line st))
  end.

(** *** The summary parser: [process_received_summary_incremental] *)

(** [l[i]] *)
Definition index {A : Type} (l : list A) (i : nat) : result A :=
  match l !! i with
  | Some x => Ok x
  | None => Raise IndexError
  end.

(** [s[n:]] *)
Fixpoint slice_from (n : nat) (s : string) : string :=
  match n, s with
  | O, _ => s
  | S k, String _ s' => slice_from k s'
  | S _, EmptyString => EmptyString
  end.

(** The source host read off the file name. *)
Definition source_server_of (filename : string) : string :=
  if Py.startswith "from_ubuntu-server-" filename && Py.contains "_" filename
  then
    let parts_name := Py.split "_" filename in
    if (3 <=? length parts_name)%nat then
      match index parts_name 2 with
      | Ok n => "ubuntu-server-" +:+ n
      | Raise _ => "unknown"
      end
    else "unknown"
  else "unknown".

(** What the parse of one entry line gives. *)
Record summary_entry : Type := {
  en_filename : string;
  en_source_server : string;
  en_file_size_str : string;
  en_received_date : string
}.

(** The parse of an entry line ["- <filename> (Size: <size>, Date: <date>)"],
    up to the insert; it raises where an index is out of range. *)
Definition parse_summary_entry (line : string) : result summary_entry :=
  let parts := Py.split " (Size: " (slice_from 2 line) in
  parts_0 ← index parts 0;
  let filename := Py.strip parts_0 in
  let source_server := source_server_of filename in
  size_date ←
    (if (1 <? length parts)%nat then
       size_and_date ← index parts 1;
       if Py.contains "bytes, Date:" size_and_date then
         size_0 ← index (Py.split " bytes, Date:" size_and_date) 0;
         let file_size_str := Py.strip size_0 +:+ " bytes" in
         date_1 ← index (Py.split "Date: " size_and_date) 1;
         let date_part := Py.rstrip_chars ")" (Py.strip date_1) in
         if Py.contains " " date_part then
           day ← index (Py.split " " date_part) 0;
           time ← index (Py.split " " date_part) 1;
           time_0 ← index (Py.split "." time) 0;
           Ok (file_size_str, day +:+ " " +:+ time_0)
         else Ok (file_size_str, EmptyString)
       else Ok (EmptyString, EmptyString)
     else Ok (EmptyString, EmptyString));
  Ok {| en_filename := filename;
        en_source_server := source_server;
        en_file_size_str := fst size_date;
        en_received_date := snd size_date |}.

(** The variables of the loop over the lines. *)
Record summary_scan : Type := {
  ss_conn : db;
  ss_in_files_section : bool;
  ss_new_files : Z;
  ss_current_count : Z
}.

(** The body of the [try] for an entry past the checkpoint: an entry that
    parses is inserted, counted and added to the day's activity; one whose
    parse raises is logged and nothing else. *)
Definition summary_entry_step (server_name : string) (line : string)
    (conn : db) (new_files : Z) : db * Z :=
  match parse_summary_entry line with
  | Ok e =>
      let file_size := parse_file_size (Some (en_file_size_str e)) in
      let conn :=
        insert_or_ignore_received
          {| rf_server_name := server_name;
             rf_filename := en_filename e;
             rf_source_server := en_source_server e;
             rf_received_date := en_received_date e;
             rf_file_size := en_file_size_str e |} conn in
      let new_files := new_files + 1 in
      let conn :=
        if Py.truthy (Some (en_received_date e)) then
          update_daily_activity conn (first_part " " (en_received_date e))
            server_name "received" file_size
        else conn in
      (conn, new_files)
  | Raise _ => (conn, new_files)
  end.

(** One turn of [for line in f]. *)
Definition summary_line (server_name : string) (last_received_count : Z)
    (st : summary_scan) (line : string) : summary_scan :=
  let line := Py.strip line in
  if Py.contains "Files Received:" line then
    {| ss_conn := ss_conn st;
       ss_in_files_section := true;
       ss_new_files := ss_new_files st;
       ss_current_count := ss_current_count st |}
  else if ss_in_files_section st && Py.startswith "- " line then
    let current_count := ss_current_count st + 1 in
    if current_count <=? last_received_count then
      {| ss_conn := ss_conn st;
         ss_in_files_section := ss_in_files_section st;
         ss_new_files := ss_new_files st;
         ss_current_count := current_count |}
    else
      let '(conn, new_files) :=
        summary_entry_step server_name line (ss_conn st) (ss_new_files st) in
      {| ss_conn := conn;
         ss_in_files_section := ss_in_files_section st;
         ss_new_files := new_files;
         ss_current_count := current_count |}
  else if ss_in_files_section st && Py.startswith "Total Files:" line then
    {| ss_conn := ss_conn st;
       ss_in_files_section := false;
       ss_new_files := ss_new_files st;
       ss_current_count := ss_current_count st |}
  else st.

(** [summary_file] is the report at [summary_file_path], line by line,
    [None] when the path does not exist.  The result is the store and
    [(new_files, current_count)]. *)
Definition process_received_summary_incremental (conn : db)
    (server_name : string) (summary_file : option (list string))
    : db * (Z * Z) :=
  match summary_file with
  | None => (conn, (0, 0))
  | Some lines =>
      let last_received_count :=
        last_received_count (get_checkpoint conn server_name) in
      let st :=
        fold_left (summary_line server_name last_received_count) lines
          {| ss_conn := conn; ss_in_files_section := false;
             ss_new_files := 0; ss_current_count := 0 |} in
      (ss_conn st, (ss_new_files st, ss_current_count st))
  end.

(** *** The host totals: [update_server_totals] *)

Definition server_ips (server_name : string) : string :=
  if String.eqb server_name "ubuntu-server-1" then "192.168.56.101"
  else if String.eqb server_name "ubuntu-server-2" then "192.168.56.102"
  else if String.eqb server_name "ubuntu-server-3" then "192.168.56.103"
  else "Unknown".

(** [ORDER BY timestamp DESC LIMIT 1]: the greatest value, NULL below all. *)
Definition later (a b : option string) : option string :=
  match a, b with
  | Some x, Some y => if String.ltb x y then b else a
  | Some _, None => a
  | None, _ => b
  end.

Definition update_server_totals (conn : db) (server_name : string)
    : result db :=
  let own :=
    filter (fun r => String.eqb (fe_server_name r) server_name = true)
      (file_exchanges conn) in
  let sent_count :=
    Z.of_nat (length (filter (fun r => is_str (fe_action r) "sent" = true) own)) in
  let received_count :=
    Z.of_nat (length (filter
      (fun r => String.eqb (rf_server_name r) server_name = true)
      (received_files conn))) in
  let last_exchange := foldr later None (map fe_timestamp own) in
  match servers conn with
  | None => Raise OperationalError
  | Some t =>
      Ok (set_servers
            (<[server_name :=
                {| sv_ip := server_ips server_name;
                   sv_sent := sent_count;
                   sv_received := received_count;
                   sv_last_update := last_exchange |}]> t)
            conn)
  end.

(** *** One host: [incremental_update_server] *)

(** The content of a host's [logs] directory. *)
Record logs : Type := {
  history_csv : option (list (gmap string (option string)));
  received_summary : option (list string)
}.

(** What the clock gives: [datetime.now().isoformat()] and
    [datetime.now().strftime('%Y-%m-%d %H:%M:%S')]. *)
Record clock : Type := {
  isoformat : string;
  strftime : string
}.

Record update_result : Type := {
  new_exchanges : Z;
  new_received : Z;
  total_exchanges : Z;
  total_received : Z
}.

(** [fs server_name] is the directory
    [./exchange_results/<server_name>/logs], [None] when it does not exist.
    The store comes back in either case; an exception leaves it as the last
    commit made it. *)
Definition incremental_update_server (fs : string -> option logs) (now : clock)
    (server_name : string) (conn : db) : db * result update_result :=
  match fs server_name with
  | None =>
      (conn, Ok {| new_exchanges := 0; new_received := 0;
                   total_exchanges := 0; total_received := 0 |})
  | Some dir =>
      let '(conn, (new_exchanges, history_lines)) :=
        process_history_file_incremental conn server_name (history_csv dir) in
      let '(conn, (new_received, received_count)) :=
        process_received_summary_incremental conn server_name
          (received_summary dir) in
      let checkpoint := get_checkpoint conn server_name in
      let total_exchanges :=
        total_processed_exchanges checkpoint + new_exchanges in
      let total_received :=
        total_processed_received checkpoint + new_received in
      let conn :=
        update_checkpoint conn (isoformat now) server_name history_lines
          received_count total_exchanges total_received in
      match update_server_totals conn server_name with
      | Ok conn' =>
          (conn', Ok {| new_exchanges := new_exchanges;
                        new_received := new_received;
                        total_exchanges := total_exchanges;
                        total_received := total_received |})
      | Raise e => (conn, Raise e)
      end
  end.

(** *** All hosts: [incremental_update_all] *)

Record total_updates : Type := {
  tu_new_exchanges : Z;
  tu_new_received : Z;
  tu_total_historical : Z
}.

Definition configured_servers : list string :=
  ["ubuntu-server-1"; "ubuntu-server-2"; "ubuntu-server-3"].

Section Orchestrator.

(** The per-host pipeline the loop calls. *)
Variable update_server : string -> db -> db * result update_result.

(** One turn of [for server_name in servers], with its [try]: an
    exception is logged and the totals stay as they are. *)
Definition update_all_step (acc : db * total_updates) (server_name : string)
    : db * total_updates :=
  let '(conn, total) := acc in
  match update_server server_name conn with
  | (conn, Ok result) =>
      (conn,
       {| tu_new_exchanges := tu_new_exchanges total + new_exchanges result;
          tu_new_received := tu_new_received total + new_received result;
          tu_total_historical :=
            tu_total_historical total
            + (total_exchanges result + total_received result) |})
  | (conn, Raise _) => (conn, total)
  end.

(** The loop, then the two rows of [metadata]. *)
Definition update_all (now : clock) (servers_list : list string) (conn : db)
    : db * result total_updates :=
  let '(conn, total) :=
    fold_left update_all_step servers_list
      (conn, {| tu_new_exchanges := 0; tu_new_received := 0;
                tu_total_historical := 0 |}) in
  match metadata conn with
  | None => (conn, Raise OperationalError)
  | Some t =>
      (set_metadata
         (<["last_incremental_update" := isoformat now]>
            (<["last_update" := strftime now]> t)) conn,
       Ok total)
  end.

End Orchestrator.

Definition incremental_update_all (fs : string -> option logs) (now : clock)
    (conn : db) : db * result total_updates :=
  update_all (incremental_update_server fs now) now configured_servers conn.

(** ** Notions the properties are stated with *)


(** The number of entry lines in the [Files Received:] sections of a
    report, read from a line where the section is open or not. *)
Fixpoint entries_from (in_files_section : bool) (lines : list string) : Z :=
  match lines with
  | [] => 0
  | line :: rest =>
      let line := Py.strip line in
      if Py.contains "Files Received:" line then entries_from true rest
      else if in_files_section && Py.startswith "- " line then
        1 + entries_from in_files_section rest
      else if in_files_section && Py.startswith "Total Files:" line then
        entries_from false rest
      else entries_from in_files_section rest
  end.


(** A string without a decimal digit. *)
Fixpoint no_digit (s : string) : bool :=
  match s with
  | EmptyString => true
  | String c s' => negb (Py.isdigit c) && no_digit s'
  end.

(** An entry line has the shape ["- <filename> (Size: <blob>)"]. *)
Definition has_size_shape (line : string) : bool :=
  Py.contains " (Size: " (slice_from 2 line).

(** The rows of the four tables of the engine are those of [conn]. *)
Definition rows_kept (conn conn' : db) : Prop :=
  file_checkpoints conn' = file_checkpoints conn
  /\ file_exchanges conn' = file_exchanges conn
  /\ received_files conn' = received_files conn
  /\ daily_activity conn' = daily_activity conn.



(** The per-host pipeline run over the hosts in order, whatever each run
    gives: the outcomes and the store at the end. *)
Fixpoint host_results (update_server : string -> db -> db * result update_result)
    (servers_list : list string) (conn : db)
    : list (result update_result) * db :=
  match servers_list with
  | [] => ([], conn)
  | server_name :: rest =>
      let '(conn, r) := update_server server_name conn in
      let '(rs, conn) := host_results update_server rest conn in
      (r :: rs, conn)
  end.

(** The results of the hosts whose run did not raise. *)
Definition completed (rs : list (result update_result)) : list update_result :=
  omap (fun r => match r with Ok x => Some x | Raise _ => None end) rs.

Definition sum_of (f : update_result -> Z) (l : list update_result) : Z :=
  foldr (fun x acc => f x + acc) 0 l.

(** The totals after the results [l] are added to them. *)
Definition add_completed (total : total_updates) (l : list update_result)
    : total_updates :=
  {| tu_new_exchanges := tu_new_exchanges total + sum_of new_exchanges l;
     tu_new_received := tu_new_received total + sum_of new_received l;
     tu_total_historical :=
       tu_total_historical total
       + sum_of (fun r => total_exchanges r + total_received r) l |}.

(** What the ledger parser leaves alone, and what the summary parser does. *)
Definition ledger_frame (conn conn' : db) : Prop :=
  received_files conn' = received_files conn
  /\ file_checkpoints conn' = file_checkpoints conn
  /\ servers conn' = servers conn
  /\ metadata conn' = metadata conn.

Definition report_frame (conn conn' : db) : Prop :=
  file_exchanges conn' = file_exchanges conn
  /\ file_checkpoints conn' = file_checkpoints conn
  /\ servers conn' = servers conn
  /\ metadata conn' = metadata conn.


(** ** Stores, files and clocks of the examples *)

(** The store as [init_db] leaves it: every table there and empty. *)
Definition empty_store : db :=
  {| file_exchanges := [];
     received_files := [];
     file_checkpoints := ∅;
     daily_activity := ∅;
     servers := Some ∅;
     metadata := Some ∅ |}.

Definition noon : clock :=
  {| isoformat := "2025-05-14T12:00:00"; strftime := "2025-05-14 12:00:00" |}.

Definition report_row : gmap string (option string) :=
  list_to_map
    [("timestamp", Some "2025-05-14 01:00:00");
     ("hostname", Some "ubuntu-server-1");
     ("action", Some "sent");
     ("target_servers", Some "ubuntu-server-2");
     ("file", Some "report.txt");
     ("status", Some "success");
     ("size", Some "2 KB")].

Definition backup_row : gmap string (option string) :=
  list_to_map
    [("timestamp", Some "2025-05-14 03:30:00");
     ("hostname", Some "ubuntu-server-1");
     ("action", Some "sent");
     ("target_servers", Some "ubuntu-server-3");
     ("file", Some "backup.tar");
     ("status", Some "success");
     ("size", Some "1.5 MB")].

Definition received_line : string :=
  "- from_ubuntu-server-2_20250514_010156.txt (Size: 931 bytes, Date: 2025-05-14 01:01:57.15534749Z +0000 UTC)".

(** A file system with a [logs] directory for [ubuntu-server-1] only. *)
Definition only_server_1 (dir : logs) (server_name : string) : option logs :=
  if String.eqb server_name "ubuntu-server-1" then Some dir else None.

Definition one_row_ledger : logs :=
  {| history_csv := Some [report_row]; received_summary := None |}.

Definition repeated_row_ledger : logs :=
  {| history_csv := Some [report_row; report_row]; received_summary := None |}.



Definition received_report : logs :=
  {| history_csv := None;
     received_summary :=
       Some ["Files Received:"; received_line; "Total Files: 1"] |}.

Definition shapeless_report : logs :=
  {| history_csv := None;
     received_summary :=
       Some ["Files Received:"; "- notes.txt"; received_line; "Total Files: 2"] |}.

Definition full_logs : logs :=
  {| history_csv := Some [report_row; backup_row];
     received_summary :=
       Some ["Files Received:"; received_line; "Total Files: 1"] |}.

(** The store after one cycle over the one-row ledger. *)
Definition store_after_one_row : db :=
  (incremental_update_all (only_server_1 one_row_ledger) noon empty_store).1.

(** A per-host pipeline that raises for [ubuntu-server-2] before it does
    anything, and is the engine's for the other hosts. *)
Definition failing_for_server_2 (fs : string -> option logs) (now : clock)
    (server_name : string) (conn : db) : db * result update_result :=
  if String.eqb server_name "ubuntu-server-2" then (conn, Raise OperationalError)
  else incremental_update_server fs now server_name conn.

(** ** Further notions *)

(** No two rows of the table have the same key. *)
Definition unique_exchanges (t : list exchange_row) : Prop :=
  ForallOrdPairs (fun r s => exchange_conflict r s = false) t.

Definition unique_received (t : list received_row) : Prop :=
  ForallOrdPairs (fun r s => received_conflict r s = false) t.







(** ** [IncrementalUpdater.get_incremental_stats] *)



(** ** [init_db] of [src/app_collector.py] *)


(** A string of white space only. *)
Fixpoint all_space (s : string) : bool :=
  match s with
  | EmptyString => true
  | String c s' => Py.isspace c && all_space s'
  end.

(** The digits of a decimal numeral, most significant first. *)
Definition numeral (d : Decimal.uint) : string := NilEmpty.string_of_uint d.

(** A string of decimal digits only. *)
Fixpoint all_digits (s : string) : bool :=
  match s with
  | EmptyString => true
  | String c s' => Py.isdigit c && all_digits s'
  end.

(** * Properties *)

(** ** Text lemmas *)

Lemma lower_char_isdigit (c : ascii) :
  Py.isdigit (Py.lower_char c) = Py.isdigit c.
Proof.
  destruct c as [[] [] [] [] [] [] [] []]; reflexivity.
Qed.

Lemma no_digit_lower (s : string) : no_digit (Py.lower s) = no_digit s.
Proof.
  induction s as [|c s IH]; simpl; [reflexivity|].
  now rewrite lower_char_isdigit, IH.
Qed.

Lemma no_digit_lstrip (p : ascii -> bool) (s : string) :
  no_digit s = true -> no_digit (Py.lstrip_with p s) = true.
Proof.
  induction s as [|c s IH]; simpl; [reflexivity|].
  intros H. destruct (p c); [|exact H].
  apply andb_true_iff in H as [_ H]. now apply IH.
Qed.

Lemma no_digit_rstrip (p : ascii -> bool) (s : string) :
  no_digit s = true -> no_digit (Py.rstrip_with p s) = true.
Proof.
  induction s as [|c s IH]; simpl; [reflexivity|].
  intros H. apply andb_true_iff in H as [Hc H].
  specialize (IH H).
  destruct (Py.rstrip_with p s).
  - destruct (p c); simpl; [reflexivity|]. now rewrite Hc.
  - simpl in *. now rewrite Hc, IH.
Qed.

Lemma no_digit_strip (s : string) :
  no_digit s = true -> no_digit (Py.strip s) = true.
Proof.
  intros H. unfold Py.strip. now apply no_digit_rstrip, no_digit_lstrip.
Qed.

Lemma no_digit_strip_number (s : string) :
  no_digit s = true -> no_digit (Py.strip_number s) = true.
Proof.
  intros H. unfold Py.strip_number. now apply no_digit_rstrip, no_digit_lstrip.
Qed.

Lemma no_digit_replace (old : string) (skip : nat) (s : string) :
  no_digit s = true -> no_digit (Py.replace_from old EmptyString skip s) = true.
Proof.
  revert skip. induction s as [|c s IH]; intros skip H; simpl; [reflexivity|].
  simpl in H. apply andb_true_iff in H as [Hc H].
  destruct skip as [|k]; [|now apply IH].
  destruct (Py.startswith old (String c s)); simpl.
  - now apply IH.
  - now rewrite Hc, IH.
Qed.

Lemma no_digit_drop_underscores (s t : string) (prev : ascii) :
  Py.drop_underscores prev s = Some t -> no_digit s = true -> no_digit t = true.
Proof.
  revert t prev. induction s as [|c s IH]; intros t prev; simpl.
  - destruct (Ascii.eqb prev "_"); [discriminate|]. now intros [= <-].
  - intros Hd H. apply andb_true_iff in H as [Hc H].
    destruct (Ascii.eqb c "_").
    + destruct (Py.isdigit prev); [|discriminate]. now apply (IH t c).
    + destruct (Ascii.eqb prev "_" && negb (Py.isdigit c)); [discriminate|].
      destruct (Py.drop_underscores c s) as [u|] eqn:Hu; [|discriminate].
      injection Hd as <-. simpl. rewrite Hc. now apply (IH u c).
Qed.

Lemma digits_no_digit (acc n : Z) (s : string) :
  no_digit s = true -> Py.digits acc n s = (acc, n, s).
Proof.
  destruct s as [|c s]; simpl; [reflexivity|].
  intros H. apply andb_true_iff in H as [Hc _].
  apply negb_true_iff in Hc. now rewrite Hc.
Qed.

Lemma no_digit_sign (s : string) :
  no_digit s = true -> no_digit (Py.sign s).2 = true.
Proof.
  destruct s as [|c s]; [reflexivity|].
  intros H. unfold Py.sign.
  destruct (Ascii.eqb_spec c "-") as [->|]; [now apply andb_true_iff in H as [_ H]|].
  destruct (Ascii.eqb_spec c "+") as [->|]; [now apply andb_true_iff in H as [_ H]|].
  destruct c as [[] [] [] [] [] [] [] []]; try exact H; congruence.
Qed.

(** A float read from a string without a digit is not a finite number. *)
Lemma float_of_str_no_digit (s : string) (f : Py.pyfloat) :
  no_digit s = true -> Py.float_of_str s = Ok f ->
  Py.int_of_float f = Raise OverflowError \/ Py.int_of_float f = Raise ValueError.
Proof.
  intros H. unfold Py.float_of_str.
  destruct (Py.drop_underscores _ _) as [t|] eqn:Ht; [|discriminate].
  apply no_digit_drop_underscores in Ht;
    [|now rewrite no_digit_lower; apply no_digit_strip_number].
  pose proof (no_digit_sign t Ht) as Hs.
  destruct (Py.sign t) as [neg t']. simpl in Hs.
  destruct (String.eqb t' "inf" || String.eqb t' "infinity").
  { intros [= <-]. now left. }
  destruct (String.eqb t' "nan").
  { intros [= <-]. now right. }
  rewrite (digits_no_digit 0 0 t' Hs).
  assert (Hfrac : (match t' with
                   | String "." u => Py.digits 0 0 u
                   | _ => (0, 0, t')
                   end).1.2 = 0).
  { destruct t' as [|c u]; [reflexivity|].
    destruct (Ascii.eqb_spec c ".") as [->|Hne].
    - simpl in Hs. now rewrite (digits_no_digit 0 0 u Hs).
    - destruct c as [[] [] [] [] [] [] [] []]; try reflexivity; congruence. }
  destruct (match t' with String "." u => Py.digits 0 0 u | _ => (0, 0, t') end)
    as [[v nf] rest].
  simpl in Hfrac. subst nf. simpl. discriminate.
Qed.

Lemma fmul_pow2_not_finite (f : Py.pyfloat) (k : Z) :
  Py.int_of_float f = Raise OverflowError \/ Py.int_of_float f = Raise ValueError ->
  Py.int_of_float (Py.fmul_pow2 f k) = Raise OverflowError
  \/ Py.int_of_float (Py.fmul_pow2 f k) = Raise ValueError.
Proof.
  destruct f; simpl; [intros [H|H]; discriminate | auto | auto].
Qed.

Lemma int_of_str_no_digit (s : string) :
  no_digit s = true -> Py.int_of_str s = Raise ValueError.
Proof.
  intros H. unfold Py.int_of_str.
  destruct (Py.drop_underscores _ _) as [t|] eqn:Ht; [|reflexivity].
  apply no_digit_drop_underscores in Ht; [|now apply no_digit_strip_number].
  pose proof (no_digit_sign t Ht) as Hs.
  destruct (Py.sign t) as [neg t']. simpl in Hs.
  now rewrite (digits_no_digit 0 0 t' Hs).
Qed.

Lemma parse_file_size_try_no_digit (s : string) :
  no_digit s = true -> exists e, parse_file_size_try s = Raise e.
Proof.
  intros H. unfold parse_file_size_try.
  assert (Hs : no_digit (Py.strip (Py.lower s)) = true).
  { apply no_digit_strip. now rewrite no_digit_lower. }
  set (t := Py.strip (Py.lower s)) in *.
  assert (Hfloat : forall u k1 k2 k3, no_digit u = true ->
            exists e, (f ← Py.float_of_str u;
                       Py.int_of_float
                         (Py.fmul_pow2 (Py.fmul_pow2 (Py.fmul_pow2 f k1) k2) k3))
                      = Raise e).
  { intros u k1 k2 k3 Hu.
    destruct (Py.float_of_str u) as [f|e] eqn:Hf; [|now exists e].
    simpl.
    destruct (fmul_pow2_not_finite _ k3 (fmul_pow2_not_finite _ k2
               (fmul_pow2_not_finite _ k1 (float_of_str_no_digit u f Hu Hf))))
      as [-> | ->]; eauto. }
  assert (Hrep : forall old, no_digit (Py.strip (Py.replace old EmptyString t)) = true).
  { intros old. now apply no_digit_strip, no_digit_replace. }
  destruct (Py.contains "kb" t).
  { destruct (Py.float_of_str _) as [f|e] eqn:Hf; [|now exists e]. simpl.
    destruct (fmul_pow2_not_finite _ 10 (float_of_str_no_digit _ f (Hrep _) Hf))
      as [-> | ->]; eauto. }
  destruct (Py.contains "mb" t).
  { destruct (Py.float_of_str _) as [f|e] eqn:Hf; [|now exists e]. simpl.
    destruct (fmul_pow2_not_finite _ 10 (fmul_pow2_not_finite _ 10
                (float_of_str_no_digit _ f (Hrep _) Hf))) as [-> | ->]; eauto. }
  destruct (Py.contains "gb" t).
  { apply Hfloat, Hrep. }
  destruct (Py.contains "bytes" t).
  { rewrite int_of_str_no_digit; [eauto | apply Hrep]. }
  destruct (Py.float_of_str t) as [f|e] eqn:Hf; [|now exists e]. simpl.
  destruct (float_of_str_no_digit t f Hs Hf) as [-> | ->]; eauto.
Qed.

(** ** The size normalizer *)

(** C5.  The size normalizer gives 1536 for "1.5 KB", 2097152 for "2 MB" and
    931 for "931 bytes"; it gives 0 for "garbage", for an unknown unit, for
    the empty string and for [None]; whenever the parse in its [try] block
    raises it gives 0, and it does so for every string without a digit. *)
Theorem parse_file_size_canonical_forms :
  parse_file_size (Some "1.5 KB") = 1536
  /\ parse_file_size (Some "2 MB") = 2097152
  /\ parse_file_size (Some "931 bytes") = 931
  /\ parse_file_size (Some "garbage") = 0
  /\ parse_file_size (Some "12 parsecs") = 0
  /\ parse_file_size (Some "") = 0
  /\ parse_file_size None = 0
  /\ (forall s e, parse_file_size_try s = Raise e -> parse_file_size (Some s) = 0)
  /\ (forall s, no_digit s = true -> parse_file_size (Some s) = 0).
Proof.
  do 7 (split; [vm_compute; reflexivity|]). split.
  - intros s e H. unfold parse_file_size. simpl default. rewrite H.
    now destruct (Py.truthy (Some s)).
  - intros s H. unfold parse_file_size. simpl default.
    destruct (parse_file_size_try_no_digit s H) as [e ->].
    now destruct (Py.truthy (Some s)).
Qed.

(** ** The daily aggregator *)

(** C10.  A bump with a direction other than 'sent' and 'received' returns
    the store it was given, for every date, host and byte count; the model
    of [update_daily_activity] is a total function, as its [except] clause
    lets nothing out. *)
Theorem update_daily_activity_other_action
    (conn : db) (date server_name action : string) (file_size : Z) :
  action <> "sent" -> action <> "received" ->
  update_daily_activity conn date server_name action file_size = conn.
Proof.
  intros Hs Hr. unfold update_daily_activity.
  apply String.eqb_neq in Hs, Hr. now rewrite Hs, Hr.
Qed.

Lemma update_daily_activity_other_action_witness :
  update_daily_activity store_after_one_row "2025-05-14" "ubuntu-server-1"
    "deleted" 2048 = store_after_one_row.
Proof.
  apply (update_daily_activity_other_action store_after_one_row
           "2025-05-14" "ubuntu-server-1" "deleted" 2048); discriminate.
Defined.

(** ** Table initialization *)

(** C1, as the claim states it, fails: the store a cycle has filled loses
    its checkpoint, exchange and daily-activity rows when an engine is
    constructed on it. *)
Lemma restart_drops_rows :
  ~ rows_kept store_after_one_row (IncrementalUpdater store_after_one_row).
Proof.
  intros (_ & H & _). vm_compute in H. discriminate H.
Qed.

(** C1, amended.  Constructing an engine leaves the [servers] and
    [metadata] tables as they are and leaves the checkpoint, exchange,
    received-file and daily-activity tables empty. *)
Theorem restart_keeps_servers_only (conn : db) :
  servers (IncrementalUpdater conn) = servers conn
  /\ metadata (IncrementalUpdater conn) = metadata conn
  /\ file_checkpoints (IncrementalUpdater conn) = ∅
  /\ file_exchanges (IncrementalUpdater conn) = []
  /\ received_files (IncrementalUpdater conn) = []
  /\ daily_activity (IncrementalUpdater conn) = ∅.
Proof. repeat split. Qed.

(** ** Duplicate ledger rows *)

(** C2, the code at the failing input.  After a cycle over a ledger of one
    row, a cycle over the ledger with that row written a second time stores
    no second record, yet reports one new exchange and counts the file a
    second time in the day's activity. *)
Lemma duplicate_row_counted_again :
  let second :=
    incremental_update_all (only_server_1 repeated_row_ledger) noon
      store_after_one_row in
  length (file_exchanges store_after_one_row) = 1%nat
  /\ files_sent <$> daily_activity store_after_one_row
       !! ("2025-05-14", "ubuntu-server-1") = Some 1
  /\ length (file_exchanges second.1) = 1%nat
  /\ tu_new_exchanges <$> (match second.2 with Ok t => Some t | Raise _ => None end)
       = Some 1
  /\ files_sent <$> daily_activity second.1
       !! ("2025-05-14", "ubuntu-server-1") = Some 2
  /\ total_size_sent <$> daily_activity second.1
       !! ("2025-05-14", "ubuntu-server-1") = Some 4096.
Proof. vm_compute. repeat split. Qed.

(** ** The source host of a received file *)

(** C3, the code at the failing input.  The entry line of the scenario is
    stored with the date part of the file name in the source host. *)
Lemma received_line_source_host :
  process_received_summary_incremental empty_store "ubuntu-server-1"
    (received_summary received_report)
  = (set_daily_activity
       {[ ("2025-05-14", "ubuntu-server-1") :=
            {| files_sent := 0; files_received := 1;
               total_size_sent := 0; total_size_received := 931 |} ]}
       (set_received_files
          [{| rf_server_name := "ubuntu-server-1";
              rf_filename := "from_ubuntu-server-2_20250514_010156.txt";
              rf_source_server := "ubuntu-server-20250514";
              rf_received_date := "2025-05-14 01:01:57";
              rf_file_size := "931 bytes" |}]
          empty_store),
     (1, 1)).
Proof. vm_compute. reflexivity. Qed.

(** ** Entry lines of the summary report *)

Lemma split_absent (sep s : string) :
  Py.contains sep s = false -> Py.split sep s = [s].
Proof.
  unfold Py.split. induction s as [|c s IH]; intros H; [reflexivity|].
  cbn [Py.contains] in H. apply orb_false_iff in H as [Hp Hc].
  cbn [Py.split_from]. rewrite Hp, (IH Hc). reflexivity.
Qed.

Lemma insert_or_ignore_received_daily (r : received_row) (conn : db) :
  daily_activity (insert_or_ignore_received r conn) = daily_activity conn.
Proof.
  unfold insert_or_ignore_received.
  now destruct (existsb (received_conflict r) (received_files conn)).
Qed.

(** C8, as the claim states it, fails: an entry line without the
    [" (Size: "] marker is stored as a record and counted. *)
Lemma shapeless_entry_is_inserted :
  has_size_shape "- notes.txt" = false
  /\ let out :=
       process_received_summary_incremental empty_store "ubuntu-server-1"
         (received_summary shapeless_report) in
     received_files out.1
     = [{| rf_server_name := "ubuntu-server-1";
           rf_filename := "notes.txt";
           rf_source_server := "unknown";
           rf_received_date := "";
           rf_file_size := "" |};
        {| rf_server_name := "ubuntu-server-1";
           rf_filename := "from_ubuntu-server-2_20250514_010156.txt";
           rf_source_server := "ubuntu-server-20250514";
           rf_received_date := "2025-05-14 01:01:57";
           rf_file_size := "931 bytes" |}]
     /\ out.2 = (2, 2).
Proof. vm_compute. repeat split. Qed.

(** C8, amended.  For an entry line of the open section that is past the
    checkpoint: when the line has no [" (Size: "] marker, a record with the
    rest of the line as file name and an empty size and date is inserted
    (or ignored as a duplicate) and counted as new, and the daily activity
    is left as it is; when the parse of the line raises, nothing is stored
    and nothing counted as new.  In both cases the entry counter counts the
    line and the scan goes on with the lines after it. *)
Theorem summary_line_malformed_entry
    (server_name : string) (last_received_count : Z) (st : summary_scan)
    (line : string) (rest : list string) :
  Py.contains "Files Received:" (Py.strip line) = false ->
  ss_in_files_section st = true ->
  Py.startswith "- " (Py.strip line) = true ->
  last_received_count < ss_current_count st + 1 ->
  let filename := Py.strip (slice_from 2 (Py.strip line)) in
  let recorded :=
    {| ss_conn :=
         insert_or_ignore_received
           {| rf_server_name := server_name;
              rf_filename := filename;
              rf_source_server := source_server_of filename;
              rf_received_date := "";
              rf_file_size := "" |} (ss_conn st);
       ss_in_files_section := true;
       ss_new_files := ss_new_files st + 1;
       ss_current_count := ss_current_count st + 1 |} in
  let skipped :=
    {| ss_conn := ss_conn st;
       ss_in_files_section := true;
       ss_new_files := ss_new_files st;
       ss_current_count := ss_current_count st + 1 |} in
  (has_size_shape (Py.strip line) = false ->
   summary_line server_name last_received_count st line = recorded
   /\ daily_activity (ss_conn recorded) = daily_activity (ss_conn st)
   /\ fold_left (summary_line server_name last_received_count) (line :: rest) st
      = fold_left (summary_line server_name last_received_count) rest recorded)
  /\ (forall e, parse_summary_entry (Py.strip line) = Raise e ->
      summary_line server_name last_received_count st line = skipped
      /\ fold_left (summary_line server_name last_received_count) (line :: rest) st
         = fold_left (summary_line server_name last_received_count) rest skipped).
Proof.
  intros Hhead Hsec Hdash Hlast filename recorded skipped.
  assert (Hstep : summary_line server_name last_received_count st line
                  = let '(conn, new_files) :=
                      summary_entry_step server_name (Py.strip line)
                        (ss_conn st) (ss_new_files st) in
                    {| ss_conn := conn;
                       ss_in_files_section := true;
                       ss_new_files := new_files;
                       ss_current_count := ss_current_count st + 1 |}).
  { unfold summary_line. rewrite Hhead, Hsec, Hdash. cbn [andb].
    apply Z.leb_gt in Hlast. rewrite Hlast.
    now destruct (summary_entry_step _ _ _ _). }
  split.
  - intros Hshape.
    assert (Hrec : summary_line server_name last_received_count st line = recorded).
    { rewrite Hstep. unfold summary_entry_step, parse_summary_entry.
      unfold has_size_shape in Hshape. rewrite (split_absent _ _ Hshape).
      reflexivity. }
    split; [exact Hrec|]. split.
    + apply insert_or_ignore_received_daily.
    + cbn [fold_left]. now rewrite Hrec.
  - intros e He.
    assert (Hskip : summary_line server_name last_received_count st line = skipped).
    { rewrite Hstep. unfold summary_entry_step. now rewrite He. }
    split; [exact Hskip|]. cbn [fold_left]. now rewrite Hskip.
Qed.

Lemma summary_line_malformed_entry_witness :
  summary_line "ubuntu-server-1" 0
    {| ss_conn := empty_store; ss_in_files_section := true;
       ss_new_files := 0; ss_current_count := 0 |} "- notes.txt"
  = {| ss_conn :=
         insert_or_ignore_received
           {| rf_server_name := "ubuntu-server-1";
              rf_filename := "notes.txt";
              rf_source_server := source_server_of "notes.txt";
              rf_received_date := "";
              rf_file_size := "" |} empty_store;
       ss_in_files_section := true;
       ss_new_files := 0 + 1;
       ss_current_count := 0 + 1 |}.
Proof.
  refine (proj1 (proj1 (summary_line_malformed_entry "ubuntu-server-1" 0
    {| ss_conn := empty_store; ss_in_files_section := true;
       ss_new_files := 0; ss_current_count := 0 |} "- notes.txt" []
    _ _ _ _) _)); reflexivity.
Defined.

(** ** The loop over the hosts *)

Lemma host_results_length
    (update_server : string -> db -> db * result update_result)
    (hosts : list string) (conn : db) :
  length (host_results update_server hosts conn).1 = length hosts.
Proof.
  revert conn. induction hosts as [|h hs IH]; intros conn; [reflexivity|].
  cbn [host_results]. destruct (update_server h conn) as [c r].
  specialize (IH c). destruct (host_results update_server hs c) as [rs c'].
  cbn in *. now rewrite IH.
Qed.

Lemma sum_of_cons (f : update_result -> Z) (x : update_result)
    (l : list update_result) :
  sum_of f (x :: l) = f x + sum_of f l.
Proof. reflexivity. Qed.

Lemma update_all_loop
    (update_server : string -> db -> db * result update_result)
    (hosts : list string) (conn : db) (total : total_updates) :
  fold_left (update_all_step update_server) hosts (conn, total)
  = ((host_results update_server hosts conn).2,
     add_completed total (completed (host_results update_server hosts conn).1)).
Proof.
  revert conn total. induction hosts as [|h hs IH]; intros conn total.
  - cbn [fold_left host_results fst snd]. f_equal.
    destruct total. unfold add_completed, completed, sum_of. cbn.
    f_equal; lia.
  - cbn [fold_left host_results]. unfold update_all_step at 2.
    destruct (update_server h conn) as [c [x|e]].
    + rewrite IH. destruct (host_results update_server hs c) as [rs c'].
      cbn [fst snd]. f_equal.
      change (completed (Ok x :: rs)) with (x :: completed rs).
      unfold add_completed. rewrite !sum_of_cons.
      cbn [tu_new_exchanges tu_new_received tu_total_historical].
      f_equal; lia.
    + rewrite IH. destruct (host_results update_server hs c) as [rs c'].
      reflexivity.
Qed.

(** C9.  Whatever the per-host pipeline does and whatever the hosts are,
    the loop runs the pipeline for every host in order, a host that raises
    included, and the aggregate it returns holds the sums of the new
    exchanges, of the new received files and of the totals over the hosts
    whose run completed.  (The call itself raises only when the [metadata]
    table is missing, after all the hosts have been processed.) *)
Theorem update_all_sums_completed_hosts
    (update_server : string -> db -> db * result update_result)
    (now : clock) (hosts : list string) (conn : db) :
  let rs := (host_results update_server hosts conn).1 in
  let conn' := (host_results update_server hosts conn).2 in
  length rs = length hosts
  /\ update_all update_server now hosts conn
     = match metadata conn' with
       | Some t =>
           (set_metadata
              (<["last_incremental_update" := isoformat now]>
                 (<["last_update" := strftime now]> t)) conn',
            Ok {| tu_new_exchanges := sum_of new_exchanges (completed rs);
                  tu_new_received := sum_of new_received (completed rs);
                  tu_total_historical :=
                    sum_of (fun r => total_exchanges r + total_received r)
                      (completed rs) |})
       | None => (conn', Raise OperationalError)
       end.
Proof.
  intros rs conn'. split; [apply host_results_length|].
  unfold update_all. rewrite update_all_loop. fold rs conn'.
  destruct (metadata conn'); reflexivity.
Qed.

(** A host that raises does not stop the loop: with [ubuntu-server-2]
    failing, the ledger of [ubuntu-server-3] is still ingested. *)
Example update_all_after_a_failing_host :
  let fs server_name :=
    if String.eqb server_name "ubuntu-server-3" then Some one_row_ledger
    else None in
  let out := update_all (failing_for_server_2 fs noon) noon configured_servers
               empty_store in
  length (file_exchanges out.1) = 1%nat
  /\ out.2 = Ok {| tu_new_exchanges := 1; tu_new_received := 0;
                   tu_total_historical := 1 |}.
Proof. vm_compute. split; reflexivity. Qed.

(** ** What the parsers leave alone *)

Lemma ledger_frame_refl (conn : db) : ledger_frame conn conn.
Proof. repeat split. Qed.

Lemma ledger_frame_trans (a b c : db) :
  ledger_frame a b -> ledger_frame b c -> ledger_frame a c.
Proof.
  intros (? & ? & ? & ?) (? & ? & ? & ?). unfold ledger_frame.
  repeat split; congruence.
Qed.

Lemma report_frame_refl (conn : db) : report_frame conn conn.
Proof. repeat split. Qed.

Lemma report_frame_trans (a b c : db) :
  report_frame a b -> report_frame b c -> report_frame a c.
Proof.
  intros (? & ? & ? & ?) (? & ? & ? & ?). unfold report_frame.
  repeat split; congruence.
Qed.

Lemma update_daily_activity_frame
    (conn : db) (date server_name action : string) (file_size : Z) :
  ledger_frame conn (update_daily_activity conn date server_name action file_size)
  /\ report_frame conn
       (update_daily_activity conn date server_name action file_size).
Proof.
  unfold update_daily_activity.
  destruct (String.eqb action "sent"); [repeat split|].
  destruct (String.eqb action "received"); repeat split.
Qed.

Lemma insert_or_ignore_exchange_frame (r : exchange_row) (conn : db) :
  ledger_frame conn (insert_or_ignore_exchange r conn).
Proof.
  unfold insert_or_ignore_exchange.
  destruct (existsb (exchange_conflict r) (file_exchanges conn));
    repeat split.
Qed.

Lemma insert_or_ignore_received_frame (r : received_row) (conn : db) :
  report_frame conn (insert_or_ignore_received r conn).
Proof.
  unfold insert_or_ignore_received.
  destruct (existsb (received_conflict r) (received_files conn));
    repeat split.
Qed.

Lemma history_row_frame (server_name : string) (last : Z) (st : history_scan)
    (row : gmap string (option string)) :
  ledger_frame (hs_conn st) (hs_conn (history_row server_name last st row)).
Proof.
  unfold history_row. cbv zeta.
  destruct (hs_current_line st + 1 <=? last); cbn [hs_conn];
    [apply ledger_frame_refl|].
  eapply ledger_frame_trans; [apply insert_or_ignore_exchange_frame|].
  destruct (Py.truthy _ && is_str _ _); [|apply ledger_frame_refl].
    apply update_daily_activity_frame.
Qed.

Lemma history_fold_frame (server_name : string) (last : Z)
    (rows : list (gmap string (option string))) (st : history_scan) :
  ledger_frame (hs_conn st)
    (hs_conn (fold_left (history_row server_name last) rows st)).
Proof.
  revert st. induction rows as [|row rows IH]; intros st; cbn [fold_left].
  - apply ledger_frame_refl.
  - eapply ledger_frame_trans; [apply history_row_frame | apply IH].
Qed.

Lemma process_history_frame (conn : db) (server_name : string)
    (f : option (list (gmap string (option string)))) :
  ledger_frame conn (process_history_file_incremental conn server_name f).1.
Proof.
  destruct f as [rows|]; cbn [process_history_file_incremental fst].
  - apply (history_fold_frame server_name _ rows
             {| hs_conn := conn; hs_new_entries := 0; hs_current_line := 0 |}).
  - apply ledger_frame_refl.
Qed.

Lemma summary_entry_step_frame (server_name line : string) (conn : db) (n : Z) :
  report_frame conn (summary_entry_step server_name line conn n).1.
Proof.
  unfold summary_entry_step.
  destruct (parse_summary_entry line) as [e|]; cbn [fst];
    [|apply report_frame_refl].
  eapply report_frame_trans; [apply insert_or_ignore_received_frame|].
  destruct (Py.truthy _); [|apply report_frame_refl].
    apply update_daily_activity_frame.
Qed.

Lemma summary_line_frame (server_name : string) (last : Z) (st : summary_scan)
    (line : string) :
  report_frame (ss_conn st) (ss_conn (summary_line server_name last st line)).
Proof.
  unfold summary_line. cbv zeta.
  destruct (Py.contains _ _); cbn [ss_conn]; [apply report_frame_refl|].
  destruct (ss_in_files_section st && Py.startswith "- " _).
  - destruct (_ <=? _); cbn [ss_conn]; [apply report_frame_refl|].
    pose proof (summary_entry_step_frame server_name (Py.strip line)
                  (ss_conn st) (ss_new_files st)) as H.
    destruct (summary_entry_step _ _ _ _) as [c n]. exact H.
  - destruct (_ && _); cbn [ss_conn]; apply report_frame_refl.
Qed.

Lemma summary_fold_frame (server_name : string) (last : Z)
    (lines : list string) (st : summary_scan) :
  report_frame (ss_conn st)
    (ss_conn (fold_left (summary_line server_name last) lines st)).
Proof.
  revert st. induction lines as [|line lines IH]; intros st; cbn [fold_left].
  - apply report_frame_refl.
  - eapply report_frame_trans; [apply summary_line_frame | apply IH].
Qed.

Lemma process_summary_frame (conn : db) (server_name : string)
    (f : option (list string)) :
  report_frame conn (process_received_summary_incremental conn server_name f).1.
Proof.
  destruct f as [lines|]; cbn [process_received_summary_incremental fst].
  - apply (summary_fold_frame server_name _ lines
             {| ss_conn := conn; ss_in_files_section := false;
                ss_new_files := 0; ss_current_count := 0 |}).
  - apply report_frame_refl.
Qed.

(** ** The counters of the two scans *)

Lemma history_lines (server_name : string) (last : Z)
    (rows : list (gmap string (option string))) (st : history_scan) :
  hs_current_line (fold_left (history_row server_name last) rows st)
  = hs_current_line st + Z.of_nat (length rows).
Proof.
  revert st. induction rows as [|row rows IH]; intros st;
    cbn [fold_left length].
  - lia.
  - rewrite IH. unfold history_row. cbv zeta.
    destruct (_ <=? _); cbn [hs_current_line]; lia.
Qed.


Lemma entries_from_nonneg (in_files_section : bool) (lines : list string) :
  0 <= entries_from in_files_section lines.
Proof.
  revert in_files_section.
  induction lines as [|line lines IH]; intros b; cbn [entries_from]; [lia|].
  cbv zeta. destruct (Py.contains _ _); [apply IH|].
  destruct (b && Py.startswith "- " _); [specialize (IH b); lia|].
  destruct (_ && _); apply IH.
Qed.

Lemma summary_count (server_name : string) (last : Z) (lines : list string)
    (st : summary_scan) :
  ss_current_count (fold_left (summary_line server_name last) lines st)
  = ss_current_count st + entries_from (ss_in_files_section st) lines.
Proof.
  revert st. induction lines as [|line lines IH]; intros st;
    cbn [fold_left entries_from].
  - lia.
  - rewrite IH. unfold summary_line. cbv zeta.
    destruct (Py.contains _ _);
      cbn [ss_current_count ss_in_files_section]; [lia|].
    destruct (ss_in_files_section st && Py.startswith "- " _).
    + destruct (_ <=? _); [cbn [ss_current_count ss_in_files_section]; lia|].
      destruct (summary_entry_step _ _ _ _).
      cbn [ss_current_count ss_in_files_section]. lia.
    + destruct (_ && _); cbn [ss_current_count ss_in_files_section]; lia.
Qed.






(** ** One host *)

Lemma incremental_update_server_no_logs (fs : string -> option logs)
    (now : clock) (server_name : string) (conn : db) :
  fs server_name = None ->
  incremental_update_server fs now server_name conn
  = (conn, Ok {| new_exchanges := 0; new_received := 0;
                 total_exchanges := 0; total_received := 0 |}).
Proof. intros H. unfold incremental_update_server. now rewrite H. Qed.

(** The store and the result of one host, from those of the two parsers. *)
Lemma incremental_update_server_parts (fs : string -> option logs)
    (now : clock) (server_name : string) (conn : db) (dir : logs) :
  fs server_name = Some dir ->
  let p1 := process_history_file_incremental conn server_name (history_csv dir) in
  let p2 := process_received_summary_incremental p1.1 server_name
              (received_summary dir) in
  let out := incremental_update_server fs now server_name conn in
  file_exchanges out.1 = file_exchanges p1.1
  /\ received_files out.1 = received_files p2.1
  /\ daily_activity out.1 = daily_activity p2.1
  /\ metadata out.1 = metadata conn
  /\ file_checkpoints out.1
     = <[server_name :=
          {| last_history_line := p1.2.2;
             last_received_count := p2.2.2;
             last_processed_date := Some (isoformat now);
             total_processed_exchanges :=
               total_processed_exchanges (get_checkpoint conn server_name)
               + p1.2.1;
             total_processed_received :=
               total_processed_received (get_checkpoint conn server_name)
               + p2.2.1 |}]> (file_checkpoints conn)
  /\ (forall r, out.2 = Ok r ->
      new_exchanges r = p1.2.1 /\ new_received r = p2.2.1)
  /\ (is_Some (servers conn) -> exists r, out.2 = Ok r).
Proof.
  intros Hfs p1 p2 out. subst out p2 p1.
  unfold incremental_update_server. rewrite Hfs.
  pose proof (process_history_frame conn server_name (history_csv dir)) as F1.
  destruct (process_history_file_incremental conn server_name (history_csv dir))
    as [c1 [n1 l1]].
  cbn [fst snd] in *.
  pose proof (process_summary_frame c1 server_name (received_summary dir)) as F2.
  destruct (process_received_summary_incremental c1 server_name
              (received_summary dir)) as [c2 [n2 l2]].
  cbn [fst snd] in *.
  destruct F1 as (A1 & A2 & A3 & A4), F2 as (B1 & B2 & B3 & B4).
  assert (Hcp : get_checkpoint c2 server_name = get_checkpoint conn server_name).
  { unfold get_checkpoint. now rewrite B2, A2. }
  rewrite Hcp. unfold update_server_totals.
  cbn [servers update_checkpoint set_file_checkpoints].
  rewrite B3, A3.
  destruct (servers conn) as [t|];
    cbn [fst snd file_exchanges received_files daily_activity metadata
         file_checkpoints set_servers set_file_checkpoints update_checkpoint].
  - split; [congruence|]. split; [reflexivity|]. split; [reflexivity|].
    split; [congruence|]. split; [congruence|].
    split; [intros r [= <-]; split; reflexivity|].
    intros _. eexists. reflexivity.
  - split; [congruence|]. split; [reflexivity|]. split; [reflexivity|].
    split; [congruence|]. split; [congruence|].
    split; [intros r [=] | intros [x [=]]].
Qed.

(** ** The checkpoint counters *)





(** ** Appended ledger rows *)

Lemma unique_eq_sym (a b : option string) : unique_eq a b = unique_eq b a.
Proof.
  destruct a, b; cbn; try reflexivity. apply String.eqb_sym.
Qed.

Lemma exchange_conflict_sym (r s : exchange_row) :
  exchange_conflict r s = exchange_conflict s r.
Proof.
  unfold exchange_conflict.
  rewrite (String.eqb_sym (fe_server_name r)),
    (unique_eq_sym (fe_timestamp r)), (unique_eq_sym (fe_filename r)),
    (unique_eq_sym (fe_action r)).
  reflexivity.
Qed.





(** ** A second cycle over the same files *)

Lemma incremental_update_server_other_checkpoint (fs : string -> option logs)
    (now : clock) (server_name other : string) (conn : db) :
  server_name <> other ->
  get_checkpoint (incremental_update_server fs now server_name conn).1 other
  = get_checkpoint conn other.
Proof.
  intros Hne. destruct (fs server_name) as [dir|] eqn:Hfs.
  - destruct (incremental_update_server_parts fs now server_name conn dir Hfs)
      as (_ & _ & _ & _ & Hcp & _).
    unfold get_checkpoint. now rewrite Hcp, lookup_insert_ne.
  - now rewrite incremental_update_server_no_logs.
Qed.

Lemma incremental_update_server_metadata (fs : string -> option logs)
    (now : clock) (server_name : string) (conn : db) :
  metadata (incremental_update_server fs now server_name conn).1 = metadata conn.
Proof.
  destruct (fs server_name) as [dir|] eqn:Hfs.
  - now destruct (incremental_update_server_parts fs now server_name conn dir Hfs)
      as (_ & _ & _ & Hm & _).
  - now rewrite incremental_update_server_no_logs.
Qed.




Lemma hosts_metadata (fs : string -> option logs) (now : clock)
    (hosts : list string) (conn : db) :
  metadata (host_results (incremental_update_server fs now) hosts conn).2
  = metadata conn.
Proof.
  revert conn. induction hosts as [|h0 hs IH]; intros conn;
    cbn [host_results]; [reflexivity|].
  pose proof (incremental_update_server_metadata fs now h0 conn) as Hm.
  destruct (incremental_update_server fs now h0 conn) as [c r].
  specialize (IH c).
  destruct (host_results (incremental_update_server fs now) hs c) as [rs c'].
  cbn [fst snd] in *. congruence.
Qed.



Lemma update_all_unfold
    (update_server : string -> db -> db * result update_result)
    (now : clock) (hosts : list string) (conn : db) :
  update_all update_server now hosts conn
  = match metadata (host_results update_server hosts conn).2 with
    | Some t =>
        (set_metadata
           (<["last_incremental_update" := isoformat now]>
              (<["last_update" := strftime now]> t))
           (host_results update_server hosts conn).2,
         Ok (add_completed
               {| tu_new_exchanges := 0; tu_new_received := 0;
                  tu_total_historical := 0 |}
               (completed (host_results update_server hosts conn).1)))
    | None => ((host_results update_server hosts conn).2, Raise OperationalError)
    end.
Proof.
  unfold update_all. rewrite update_all_loop.
  now destruct (metadata (host_results update_server hosts conn).2).
Qed.



(** * Further properties of the engine *)

(** ** The checkpoint store *)

(** X1.  A checkpoint that was written is the one read back for the host,
    with the time of the write, and the checkpoint of any other host reads
    as before the write. *)
Theorem checkpoint_written_is_read (conn : db) (now server_name other : string)
    (history_lines received_count total_exchanges total_received : Z) :
  server_name <> other ->
  let conn' :=
    update_checkpoint conn now server_name history_lines received_count
      total_exchanges total_received in
  get_checkpoint conn' server_name
  = {| last_history_line := history_lines;
       last_received_count := received_count;
       last_processed_date := Some now;
       total_processed_exchanges := total_exchanges;
       total_processed_received := total_received |}
  /\ get_checkpoint conn' other = get_checkpoint conn other.
Proof.
  intros Hne conn'. subst conn'. unfold get_checkpoint, update_checkpoint.
  cbn [file_checkpoints set_file_checkpoints].
  rewrite lookup_insert_eq, lookup_insert_ne by exact Hne. now split.
Qed.

Lemma checkpoint_written_is_read_witness :
  let conn' :=
    update_checkpoint store_after_one_row "2025-05-15T00:00:00"
      "ubuntu-server-2" 7 3 7 3 in
  get_checkpoint conn' "ubuntu-server-2"
  = {| last_history_line := 7;
       last_received_count := 3;
       last_processed_date := Some "2025-05-15T00:00:00";
       total_processed_exchanges := 7;
       total_processed_received := 3 |}
  /\ get_checkpoint conn' "ubuntu-server-1"
     = get_checkpoint store_after_one_row "ubuntu-server-1".
Proof.
  apply (checkpoint_written_is_read store_after_one_row "2025-05-15T00:00:00"
           "ubuntu-server-2" "ubuntu-server-1" 7 3 7 3).
  discriminate.
Defined.

(** ** Unique keys *)

Lemma existsb_none_inv {A : Type} (f : A -> bool) (l : list A) :
  existsb f l = false -> Forall (fun x => f x = false) l.
Proof.
  induction l as [|x l IH]; cbn; intros H; constructor.
  - now apply orb_false_iff in H as [H _].
  - apply IH. now apply orb_false_iff in H as [_ H].
Qed.

Lemma ForallOrdPairs_snoc {A : Type} (R : A -> A -> Prop) (l : list A) (a : A) :
  ForallOrdPairs R l -> Forall (fun x => R x a) l ->
  ForallOrdPairs R (l ++ [a]).
Proof.
  induction 1 as [|x l Hx Hl IH]; intros Ha; cbn.
  - constructor; constructor.
  - inversion_clear Ha as [|? ? Hxa Hla]. constructor.
    + apply Forall_app. split; [exact Hx | now constructor].
    + now apply IH.
Qed.

Lemma received_conflict_sym (r s : received_row) :
  received_conflict r s = received_conflict s r.
Proof.
  unfold received_conflict.
  rewrite (String.eqb_sym (rf_server_name r)),
    (String.eqb_sym (rf_filename r)), (String.eqb_sym (rf_received_date r)).
  reflexivity.
Qed.

Lemma insert_or_ignore_exchange_unique (r : exchange_row) (conn : db) :
  unique_exchanges (file_exchanges conn) ->
  unique_exchanges (file_exchanges (insert_or_ignore_exchange r conn)).
Proof.
  intros H. unfold insert_or_ignore_exchange.
  destruct (existsb (exchange_conflict r) (file_exchanges conn)) eqn:E;
    [exact H|].
  cbn [file_exchanges set_file_exchanges].
  apply ForallOrdPairs_snoc; [exact H|].
  apply existsb_none_inv in E.
  eapply Forall_impl; [exact E|].
  intros s Hs. cbn in Hs. now rewrite exchange_conflict_sym.
Qed.

Lemma insert_or_ignore_received_unique (r : received_row) (conn : db) :
  unique_received (received_files conn) ->
  unique_received (received_files (insert_or_ignore_received r conn)).
Proof.
  intros H. unfold insert_or_ignore_received.
  destruct (existsb (received_conflict r) (received_files conn)) eqn:E;
    [exact H|].
  cbn [received_files set_received_files].
  apply ForallOrdPairs_snoc; [exact H|].
  apply existsb_none_inv in E.
  eapply Forall_impl; [exact E|].
  intros s Hs. cbn in Hs. now rewrite received_conflict_sym.
Qed.

Lemma history_row_unique (server_name : string) (last : Z) (st : history_scan)
    (row : gmap string (option string)) :
  unique_exchanges (file_exchanges (hs_conn st)) ->
  unique_exchanges
    (file_exchanges (hs_conn (history_row server_name last st row))).
Proof.
  intros H. unfold history_row. cbv zeta.
  destruct (hs_current_line st + 1 <=? last); cbn [hs_conn]; [exact H|].
  pose proof (insert_or_ignore_exchange_unique
                (exchange_of_row server_name row) (hs_conn st) H) as H'.
  destruct (Py.truthy _ && is_str _ _); [|exact H'].
  destruct (update_daily_activity_frame
              (insert_or_ignore_exchange (exchange_of_row server_name row)
                 (hs_conn st))
              (first_part " "
                 (default EmptyString
                    (fe_timestamp (exchange_of_row server_name row))))
              server_name "sent"
              (fe_file_size (exchange_of_row server_name row)))
    as [_ (F & _)].
  now rewrite F.
Qed.

Lemma process_history_unique (conn : db) (server_name : string)
    (f : option (list (gmap string (option string)))) :
  unique_exchanges (file_exchanges conn) ->
  unique_exchanges
    (file_exchanges (process_history_file_incremental conn server_name f).1).
Proof.
  intros H. destruct f as [rows|];
    cbn [process_history_file_incremental fst]; [|exact H].
  generalize (last_history_line (get_checkpoint conn server_name)). intros last.
  change conn with
    (hs_conn {| hs_conn := conn; hs_new_entries := 0; hs_current_line := 0 |})
    in H.
  revert H.
  generalize {| hs_conn := conn; hs_new_entries := 0; hs_current_line := 0 |}.
  induction rows as [|row rows IH]; intros st H; cbn [fold_left]; [exact H|].
  apply IH. now apply history_row_unique.
Qed.

Lemma summary_line_unique (server_name : string) (last : Z) (st : summary_scan)
    (line : string) :
  unique_received (received_files (ss_conn st)) ->
  unique_received
    (received_files (ss_conn (summary_line server_name last st line))).
Proof.
  intros H. unfold summary_line. cbv zeta.
  destruct (Py.contains _ _); cbn [ss_conn]; [exact H|].
  destruct (ss_in_files_section st && Py.startswith "- " _).
  - destruct (_ <=? _); cbn [ss_conn]; [exact H|].
    unfold summary_entry_step.
    destruct (parse_summary_entry (Py.strip line)) as [e|]; cbn [ss_conn];
      [|exact H].
    set (r := {| rf_server_name := server_name;
                 rf_filename := en_filename e;
                 rf_source_server := en_source_server e;
                 rf_received_date := en_received_date e;
                 rf_file_size := en_file_size_str e |}).
    pose proof (insert_or_ignore_received_unique r (ss_conn st) H) as H'.
    destruct (Py.truthy _); [|exact H'].
    destruct (update_daily_activity_frame
                (insert_or_ignore_received r (ss_conn st))
                (first_part " " (en_received_date e)) server_name "received"
                (parse_file_size (Some (en_file_size_str e))))
      as [(F & _) _].
    now rewrite F.
  - destruct (_ && _); cbn [ss_conn]; exact H.
Qed.

Lemma process_summary_unique (conn : db) (server_name : string)
    (f : option (list string)) :
  unique_received (received_files conn) ->
  unique_received
    (received_files
       (process_received_summary_incremental conn server_name f).1).
Proof.
  intros H. destruct f as [lines|];
    cbn [process_received_summary_incremental fst]; [|exact H].
  generalize (last_received_count (get_checkpoint conn server_name)).
  intros last.
  change conn with
    (ss_conn {| ss_conn := conn; ss_in_files_section := false;
                ss_new_files := 0; ss_current_count := 0 |}) in H.
  revert H.
  generalize {| ss_conn := conn; ss_in_files_section := false;
                ss_new_files := 0; ss_current_count := 0 |}.
  induction lines as [|line lines IH]; intros st H; cbn [fold_left]; [exact H|].
  apply IH. now apply summary_line_unique.
Qed.

Lemma incremental_update_server_unique (fs : string -> option logs)
    (now : clock) (server_name : string) (conn : db) :
  unique_exchanges (file_exchanges conn) ->
  unique_received (received_files conn) ->
  unique_exchanges
    (file_exchanges (incremental_update_server fs now server_name conn).1)
  /\ unique_received
       (received_files (incremental_update_server fs now server_name conn).1).
Proof.
  intros He Hr. destruct (fs server_name) as [dir|] eqn:Hfs.
  - destruct (incremental_update_server_parts fs now server_name conn dir Hfs)
      as (Hfe & Hrf & _).
    rewrite Hfe, Hrf. split.
    + now apply process_history_unique.
    + apply process_summary_unique.
      destruct (process_history_frame conn server_name (history_csv dir))
        as (F & _).
      now rewrite F.
  - rewrite incremental_update_server_no_logs by exact Hfs. now split.
Qed.

(** X2.  A cycle keeps the keys of the store unique: when no two exchange
    records share (host, timestamp, filename, action) and no two
    received-file records share (host, filename, received date) before a
    cycle, none do after it, whatever the files hold. *)
Theorem cycle_keeps_keys_unique (fs : string -> option logs) (now : clock)
    (conn : db) :
  unique_exchanges (file_exchanges conn) ->
  unique_received (received_files conn) ->
  unique_exchanges (file_exchanges (incremental_update_all fs now conn).1)
  /\ unique_received (received_files (incremental_update_all fs now conn).1).
Proof.
  intros He Hr. unfold incremental_update_all. rewrite update_all_unfold.
  assert (H : unique_exchanges
                (file_exchanges
                   (host_results (incremental_update_server fs now)
                      configured_servers conn).2)
              /\ unique_received
                   (received_files
                      (host_results (incremental_update_server fs now)
                         configured_servers conn).2)).
  { revert conn He Hr.
    induction configured_servers as [|h hs IH]; intros conn He Hr;
      cbn [host_results]; [now split|].
    destruct (incremental_update_server_unique fs now h conn He Hr) as [He' Hr'].
    destruct (incremental_update_server fs now h conn) as [c r].
    specialize (IH c He' Hr').
    destruct (host_results (incremental_update_server fs now) hs c) as [rs c'].
    exact IH. }
  destruct (metadata _); exact H.
Qed.

Lemma cycle_keeps_keys_unique_witness :
  unique_exchanges
    (file_exchanges
       (incremental_update_all (only_server_1 repeated_row_ledger) noon
          empty_store).1)
  /\ unique_received
       (received_files
          (incremental_update_all (only_server_1 repeated_row_ledger) noon
             empty_store).1).
Proof.
  apply (cycle_keeps_keys_unique (only_server_1 repeated_row_ledger) noon
           empty_store); constructor.
Defined.

(** ** What one host's update touches *)

Lemma update_daily_activity_other_key
    (conn : db) (date server_name action : string) (file_size : Z)
    (key : string * string) :
  key <> (date, server_name) ->
  daily_activity (update_daily_activity conn date server_name action file_size)
    !! key
  = daily_activity conn !! key.
Proof.
  intros Hne. unfold update_daily_activity.
  destruct (String.eqb action "sent");
    [cbn [daily_activity set_daily_activity]; now rewrite lookup_insert_ne|].
  destruct (String.eqb action "received");
    [cbn [daily_activity set_daily_activity]; now rewrite lookup_insert_ne|].
  reflexivity.
Qed.

Lemma insert_or_ignore_exchange_daily (r : exchange_row) (conn : db) :
  daily_activity (insert_or_ignore_exchange r conn) = daily_activity conn.
Proof.
  unfold insert_or_ignore_exchange.
  now destruct (existsb (exchange_conflict r) (file_exchanges conn)).
Qed.

(** One row of the ledger: at most one record of the host is appended, the
    count of new entries grows by as much at least, and the daily rows of
    the other hosts stay. *)
Lemma history_row_appends (server_name : string) (last : Z) (st : history_scan)
    (row : gmap string (option string)) :
  exists es,
    file_exchanges (hs_conn (history_row server_name last st row))
    = (file_exchanges (hs_conn st) ++ es)%list
    /\ Forall (fun r => fe_server_name r = server_name) es
    /\ Z.of_nat (length es)
       <= hs_new_entries (history_row server_name last st row)
          - hs_new_entries st
    /\ forall date other, other <> server_name ->
       daily_activity (hs_conn (history_row server_name last st row))
         !! (date, other)
       = daily_activity (hs_conn st) !! (date, other).
Proof.
  unfold history_row. cbv zeta.
  destruct (hs_current_line st + 1 <=? last);
    cbn [hs_conn hs_new_entries].
  { exists []. rewrite app_nil_r. repeat split; [constructor | cbn; lia]. }
  set (r := exchange_of_row server_name row).
  assert (Hins : exists es,
            file_exchanges (insert_or_ignore_exchange r (hs_conn st))
            = (file_exchanges (hs_conn st) ++ es)%list
            /\ Forall (fun r => fe_server_name r = server_name) es
            /\ Z.of_nat (length es) <= 1).
  { unfold insert_or_ignore_exchange.
    destruct (existsb (exchange_conflict r) (file_exchanges (hs_conn st))).
    - exists []. rewrite app_nil_r. repeat split; [constructor | cbn; lia].
    - exists [r]. repeat split; [|cbn; lia].
      constructor; [reflexivity | constructor]. }
  destruct Hins as (es & Hes & Hown & Hlen).
  exists es. destruct (Py.truthy _ && is_str _ _).
  - destruct (update_daily_activity_frame
                (insert_or_ignore_exchange r (hs_conn st))
                (first_part " " (default EmptyString (fe_timestamp r)))
                server_name "sent" (fe_file_size r)) as [_ (F & _)].
    rewrite F. repeat split; [exact Hes | exact Hown | lia |].
    intros date other Hne.
    rewrite update_daily_activity_other_key by congruence.
    now rewrite insert_or_ignore_exchange_daily.
  - repeat split; [exact Hes | exact Hown | lia |].
    intros date other Hne. now rewrite insert_or_ignore_exchange_daily.
Qed.

Lemma history_fold_appends (server_name : string) (last : Z)
    (rows : list (gmap string (option string))) (st : history_scan) :
  exists es,
    file_exchanges (hs_conn (fold_left (history_row server_name last) rows st))
    = (file_exchanges (hs_conn st) ++ es)%list
    /\ Forall (fun r => fe_server_name r = server_name) es
    /\ Z.of_nat (length es)
       <= hs_new_entries (fold_left (history_row server_name last) rows st)
          - hs_new_entries st
    /\ forall date other, other <> server_name ->
       daily_activity
         (hs_conn (fold_left (history_row server_name last) rows st))
         !! (date, other)
       = daily_activity (hs_conn st) !! (date, other).
Proof.
  revert st. induction rows as [|row rows IH]; intros st; cbn [fold_left].
  - exists []. rewrite app_nil_r. repeat split; [constructor | cbn; lia].
  - destruct (history_row_appends server_name last st row)
      as (e1 & H1 & O1 & L1 & D1).
    destruct (IH (history_row server_name last st row))
      as (e2 & H2 & O2 & L2 & D2).
    exists (e1 ++ e2)%list. rewrite H2, H1, <- app_assoc.
    repeat split.
    + apply Forall_app. now split.
    + rewrite length_app. lia.
    + intros date other Hne. rewrite D2, D1 by exact Hne. reflexivity.
Qed.

Lemma summary_line_appends (server_name : string) (last : Z) (st : summary_scan)
    (line : string) :
  exists rs,
    received_files (ss_conn (summary_line server_name last st line))
    = (received_files (ss_conn st) ++ rs)%list
    /\ Forall (fun r => rf_server_name r = server_name) rs
    /\ Z.of_nat (length rs)
       <= ss_new_files (summary_line server_name last st line)
          - ss_new_files st
    /\ ss_new_files (summary_line server_name last st line) - ss_new_files st
       <= Z.max last (ss_current_count (summary_line server_name last st line))
          - Z.max last (ss_current_count st)
    /\ forall date other, other <> server_name ->
       daily_activity (ss_conn (summary_line server_name last st line))
         !! (date, other)
       = daily_activity (ss_conn st) !! (date, other).
Proof.
  assert (Hsame : forall st' : summary_scan,
            ss_conn st' = ss_conn st -> ss_new_files st' = ss_new_files st ->
            ss_current_count st <= ss_current_count st' ->
            exists rs,
              received_files (ss_conn st')
              = (received_files (ss_conn st) ++ rs)%list
              /\ Forall (fun r => rf_server_name r = server_name) rs
              /\ Z.of_nat (length rs) <= ss_new_files st' - ss_new_files st
              /\ ss_new_files st' - ss_new_files st
                 <= Z.max last (ss_current_count st')
                    - Z.max last (ss_current_count st)
              /\ forall date other, other <> server_name ->
                 daily_activity (ss_conn st') !! (date, other)
                 = daily_activity (ss_conn st) !! (date, other)).
  { intros st' Hc Hn Hle. exists []. rewrite app_nil_r, Hc, Hn.
    repeat split; [constructor | cbn; lia | lia]. }
  unfold summary_line. cbv zeta.
  destruct (Py.contains _ _); [apply Hsame; cbn; try reflexivity; lia|].
  destruct (ss_in_files_section st && Py.startswith "- " _).
  2: { destruct (_ && _); apply Hsame; cbn; try reflexivity; lia. }
  destruct (Z.leb_spec (ss_current_count st + 1) last);
    [apply Hsame; cbn; try reflexivity; lia|].
  unfold summary_entry_step.
  destruct (parse_summary_entry (Py.strip line)) as [e|];
    cbn [ss_conn ss_new_files ss_current_count].
  2: { exists []. rewrite app_nil_r.
       repeat split; [constructor | cbn; lia | lia]. }
  set (r := {| rf_server_name := server_name;
               rf_filename := en_filename e;
               rf_source_server := en_source_server e;
               rf_received_date := en_received_date e;
               rf_file_size := en_file_size_str e |}).
  assert (Hins : exists rs,
            received_files (insert_or_ignore_received r (ss_conn st))
            = (received_files (ss_conn st) ++ rs)%list
            /\ Forall (fun r => rf_server_name r = server_name) rs
            /\ Z.of_nat (length rs) <= 1).
  { unfold insert_or_ignore_received.
    destruct (existsb (received_conflict r) (received_files (ss_conn st))).
    - exists []. rewrite app_nil_r. repeat split; [constructor | cbn; lia].
    - exists [r]. repeat split; [|cbn; lia].
      constructor; [reflexivity | constructor]. }
  destruct Hins as (rs & Hrs & Hown & Hlen).
  exists rs. destruct (Py.truthy _); cbn [ss_conn ss_new_files].
  - destruct (update_daily_activity_frame
                (insert_or_ignore_received r (ss_conn st))
                (first_part " " (en_received_date e)) server_name "received"
                (parse_file_size (Some (en_file_size_str e))))
      as [(F & _) _].
    rewrite F. repeat split; [exact Hrs | exact Hown | lia | lia |].
    intros date other Hne.
    rewrite update_daily_activity_other_key by congruence.
    now rewrite insert_or_ignore_received_daily.
  - repeat split; [exact Hrs | exact Hown | lia | lia |].
    intros date other Hne. now rewrite insert_or_ignore_received_daily.
Qed.

Lemma summary_fold_monotone (server_name : string) (last : Z)
    (lines : list string) (st : summary_scan) :
  ss_current_count st
  <= ss_current_count (fold_left (summary_line server_name last) lines st).
Proof.
  rewrite summary_count.
  pose proof (entries_from_nonneg (ss_in_files_section st) lines). lia.
Qed.

Lemma summary_fold_appends (server_name : string) (last : Z)
    (lines : list string) (st : summary_scan) :
  exists rs,
    received_files (ss_conn (fold_left (summary_line server_name last) lines st))
    = (received_files (ss_conn st) ++ rs)%list
    /\ Forall (fun r => rf_server_name r = server_name) rs
    /\ Z.of_nat (length rs)
       <= ss_new_files (fold_left (summary_line server_name last) lines st)
          - ss_new_files st
    /\ ss_new_files (fold_left (summary_line server_name last) lines st)
       - ss_new_files st
       <= Z.max last
            (ss_current_count
               (fold_left (summary_line server_name last) lines st))
          - Z.max last (ss_current_count st)
    /\ forall date other, other <> server_name ->
       daily_activity
         (ss_conn (fold_left (summary_line server_name last) lines st))
         !! (date, other)
       = daily_activity (ss_conn st) !! (date, other).
Proof.
  revert st. induction lines as [|line lines IH]; intros st; cbn [fold_left].
  - exists []. rewrite app_nil_r. repeat split; [constructor | cbn; lia | lia].
  - destruct (summary_line_appends server_name last st line)
      as (r1 & H1 & O1 & L1 & B1 & D1).
    destruct (IH (summary_line server_name last st line))
      as (r2 & H2 & O2 & L2 & B2 & D2).
    pose proof (summary_fold_monotone server_name last [line] st) as M1.
    cbn [fold_left] in M1.
    pose proof (summary_fold_monotone server_name last lines
                  (summary_line server_name last st line)) as M2.
    exists (r1 ++ r2)%list. rewrite H2, H1, <- app_assoc.
    repeat split.
    + apply Forall_app. now split.
    + rewrite length_app. lia.
    + lia.
    + intros date other Hne. rewrite D2, D1 by exact Hne. reflexivity.
Qed.

(** X3.  The update of one host touches the data of that host only: the
    records it appends to the exchange and received-file tables carry the
    host's name and the earlier rows stay in front of them, and the
    checkpoints, the daily-activity rows and the [servers] rows of every
    other host are as before. *)
Theorem host_update_touches_own_data (fs : string -> option logs) (now : clock)
    (server_name other : string) (conn : db) :
  other <> server_name ->
  let conn' := (incremental_update_server fs now server_name conn).1 in
  (exists es rs,
     file_exchanges conn' = (file_exchanges conn ++ es)%list
     /\ Forall (fun r => fe_server_name r = server_name) es
     /\ received_files conn' = (received_files conn ++ rs)%list
     /\ Forall (fun r => rf_server_name r = server_name) rs)
  /\ get_checkpoint conn' other = get_checkpoint conn other
  /\ (forall date,
      daily_activity conn' !! (date, other) = daily_activity conn !! (date, other))
  /\ (servers conn' ≫= (fun t => t !! other))
     = (servers conn ≫= (fun t => t !! other)).
Proof.
  intros Hne conn'. subst conn'.
  split; [|split;
    [apply incremental_update_server_other_checkpoint; congruence|]].
  - destruct (fs server_name) as [dir|] eqn:Hfs.
    2: { rewrite incremental_update_server_no_logs by exact Hfs.
         exists [], []. rewrite !app_nil_r. repeat split; constructor. }
    destruct (incremental_update_server_parts fs now server_name conn dir Hfs)
      as (Hfe & Hrf & _).
    rewrite Hfe, Hrf.
    destruct (process_history_frame conn server_name (history_csv dir))
      as (F & _).
    destruct (history_csv dir) as [rows|], (received_summary dir) as [lines|];
      cbn [process_history_file_incremental
           process_received_summary_incremental fst] in *.
    + destruct (history_fold_appends server_name
                  (last_history_line (get_checkpoint conn server_name)) rows
                  {| hs_conn := conn; hs_new_entries := 0;
                     hs_current_line := 0 |}) as (es & He & Ho & _).
      match goal with
      | |- context [fold_left (summary_line ?s ?l) lines ?st] =>
          destruct (summary_fold_appends s l lines st) as (rs & Hr & Hro & _)
      end.
      cbn [ss_conn hs_conn] in *.
      exists es, rs. rewrite He, Hr, F. repeat split; assumption.
    + destruct (history_fold_appends server_name
                  (last_history_line (get_checkpoint conn server_name)) rows
                  {| hs_conn := conn; hs_new_entries := 0;
                     hs_current_line := 0 |}) as (es & He & Ho & _).
      cbn [hs_conn] in *.
      exists es, []. rewrite He, F, app_nil_r.
      repeat split; [assumption | constructor].
    + match goal with
      | |- context [fold_left (summary_line ?s ?l) lines ?st] =>
          destruct (summary_fold_appends s l lines st) as (rs & Hr & Hro & _)
      end.
      cbn [ss_conn] in *.
      exists [], rs. rewrite Hr, app_nil_r.
      repeat split; [constructor | assumption].
    + exists [], []. rewrite !app_nil_r. repeat split; constructor.
  - destruct (fs server_name) as [dir|] eqn:Hfs.
    2: { rewrite incremental_update_server_no_logs by exact Hfs. now split. }
    split.
    + intros date.
      destruct (incremental_update_server_parts fs now server_name conn dir Hfs)
        as (_ & _ & Hda & _).
      rewrite Hda.
      destruct (history_csv dir) as [rows|], (received_summary dir) as [lines|];
        cbn [process_history_file_incremental
             process_received_summary_incremental fst].
      * match goal with
        | |- context [fold_left (summary_line ?s ?l) lines ?st] =>
            destruct (summary_fold_appends s l lines st) as (_ & _ & _ & _ & _ & D)
        end.
        rewrite D by exact Hne. cbn [ss_conn].
        destruct (history_fold_appends server_name
                    (last_history_line (get_checkpoint conn server_name)) rows
                    {| hs_conn := conn; hs_new_entries := 0;
                       hs_current_line := 0 |}) as (_ & _ & _ & _ & D').
        now rewrite D' by exact Hne.
      * destruct (history_fold_appends server_name
                    (last_history_line (get_checkpoint conn server_name)) rows
                    {| hs_conn := conn; hs_new_entries := 0;
                       hs_current_line := 0 |}) as (_ & _ & _ & _ & D').
        now rewrite D' by exact Hne.
      * match goal with
        | |- context [fold_left (summary_line ?s ?l) lines ?st] =>
            destruct (summary_fold_appends s l lines st) as (_ & _ & _ & _ & _ & D)
        end.
        now rewrite D by exact Hne.
      * reflexivity.
    + unfold incremental_update_server. rewrite Hfs.
      pose proof (process_history_frame conn server_name (history_csv dir)) as F1.
      destruct (process_history_file_incremental conn server_name
                  (history_csv dir)) as [c1 [n1 l1]].
      cbn [fst] in F1.
      pose proof (process_summary_frame c1 server_name (received_summary dir))
        as F2.
      destruct (process_received_summary_incremental c1 server_name
                  (received_summary dir)) as [c2 [n2 l2]].
      cbn [fst] in F2.
      destruct F1 as (_ & _ & A3 & _), F2 as (_ & _ & B3 & _).
      unfold update_server_totals.
      cbn [servers update_checkpoint set_file_checkpoints].
      rewrite B3, A3.
      destruct (servers conn) as [t|];
        cbn [fst servers set_servers update_checkpoint set_file_checkpoints].
      * cbn. rewrite lookup_insert_ne by congruence. reflexivity.
      * cbn. now rewrite B3, A3.
Qed.

Lemma host_update_touches_own_data_witness :
  let conn' :=
    (incremental_update_server (only_server_1 full_logs) noon
       "ubuntu-server-1" store_after_one_row).1 in
  (exists es rs,
     file_exchanges conn' = (file_exchanges store_after_one_row ++ es)%list
     /\ Forall (fun r => fe_server_name r = "ubuntu-server-1") es
     /\ received_files conn' = (received_files store_after_one_row ++ rs)%list
     /\ Forall (fun r => rf_server_name r = "ubuntu-server-1") rs)
  /\ get_checkpoint conn' "ubuntu-server-2"
     = get_checkpoint store_after_one_row "ubuntu-server-2"
  /\ (forall date,
      daily_activity conn' !! (date, "ubuntu-server-2")
      = daily_activity store_after_one_row !! (date, "ubuntu-server-2"))
  /\ (servers conn' ≫= (fun t => t !! "ubuntu-server-2"))
     = (servers store_after_one_row ≫= (fun t => t !! "ubuntu-server-2")).
Proof.
  apply (host_update_touches_own_data (only_server_1 full_logs) noon
           "ubuntu-server-1" "ubuntu-server-2" store_after_one_row).
  discriminate.
Defined.

(** ** The counts the two parsers return *)



(** X5.  The summary parser counts every entry line of a [Files Received:]
    section, and reports as new at most the entries past the checkpoint: for
    [n] entries and a checkpoint at [last] the count of new files is between
    0 and [max 0 (n - max 0 last)], and the received-file table grows by no
    more rows than that count. *)
Theorem summary_reports_entries_past_checkpoint (conn : db)
    (server_name : string) (lines : list string) :
  let last := last_received_count (get_checkpoint conn server_name) in
  let out :=
    process_received_summary_incremental conn server_name (Some lines) in
  out.2.2 = entries_from false lines
  /\ 0 <= out.2.1 <= Z.max 0 (entries_from false lines - Z.max 0 last)
  /\ Z.of_nat (length (received_files out.1))
     <= Z.of_nat (length (received_files conn)) + out.2.1.
Proof.
  intros last out. subst out last.
  cbn [process_received_summary_incremental fst snd].
  match goal with
  | |- context [fold_left (summary_line ?s ?l) lines ?st] =>
      destruct (summary_fold_appends s l lines st) as (rs & Hr & _ & Hl & Hb & _);
      pose proof (summary_count s l lines st) as Hc
  end.
  pose proof (entries_from_nonneg false lines) as Hn.
  cbn [ss_conn ss_new_files ss_current_count ss_in_files_section] in *.
  rewrite Hc in *. rewrite Hr, length_app. repeat split; lia.
Qed.

(** X6.  A report without a [Files Received:] line gives nothing: no entry
    is counted, nothing is stored, and the store is the one given. *)
Theorem summary_without_section_header (conn : db) (server_name : string)
    (lines : list string) :
  Forall (fun line => Py.contains "Files Received:" (Py.strip line) = false)
    lines ->
  process_received_summary_incremental conn server_name (Some lines)
  = (conn, (0, 0)).
Proof.
  intros H. cbn [process_received_summary_incremental].
  generalize (last_received_count (get_checkpoint conn server_name)).
  intros last.
  assert (Hfold :
    fold_left (summary_line server_name last) lines
      {| ss_conn := conn; ss_in_files_section := false;
         ss_new_files := 0; ss_current_count := 0 |}
    = {| ss_conn := conn; ss_in_files_section := false;
         ss_new_files := 0; ss_current_count := 0 |}).
  { induction H as [|line lines Hline _ IH]; cbn [fold_left]; [reflexivity|].
    unfold summary_line at 2. cbv zeta. rewrite Hline.
    cbn [ss_in_files_section andb]. exact IH. }
  now rewrite Hfold.
Qed.

Lemma summary_without_section_header_witness :
  process_received_summary_incremental store_after_one_row "ubuntu-server-1"
    (Some ["Report of the day"; received_line; "Total Files: 1"])
  = (store_after_one_row, (0, 0)).
Proof.
  apply (summary_without_section_header store_after_one_row "ubuntu-server-1"
           ["Report of the day"; received_line; "Total Files: 1"]).
  repeat constructor.
Defined.

(** ** The daily activity *)











(** ** The host totals *)

Lemma update_server_totals_row (conn conn' : db) (server_name : string) :
  update_server_totals conn server_name = Ok conn' ->
  file_exchanges conn' = file_exchanges conn
  /\ received_files conn' = received_files conn
  /\ exists t,
       servers conn = Some t
       /\ servers conn'
          = Some (<[server_name :=
               {| sv_ip := server_ips server_name;
                  sv_sent :=
                    Z.of_nat (length
                      (filter (fun r => is_str (fe_action r) "sent" = true)
                         (filter
                            (fun r =>
                               String.eqb (fe_server_name r) server_name = true)
                            (file_exchanges conn))));
                  sv_received :=
                    Z.of_nat (length
                      (filter
                         (fun r =>
                            String.eqb (rf_server_name r) server_name = true)
                         (received_files conn)));
                  sv_last_update :=
                    foldr later None
                      (map fe_timestamp
                         (filter
                            (fun r =>
                               String.eqb (fe_server_name r) server_name = true)
                            (file_exchanges conn))) |}]> t).
Proof.
  unfold update_server_totals. destruct (servers conn) as [t|]; [|discriminate].
  intros [= <-]. cbn [file_exchanges received_files servers set_servers].
  repeat split. now exists t.
Qed.

(** With the [servers] table there, the update of a host with a [logs]
    directory ends with the host totals computed on the store it returns. *)
Lemma incremental_update_server_totals (fs : string -> option logs)
    (now : clock) (server_name : string) (conn : db) (dir : logs) :
  fs server_name = Some dir -> is_Some (servers conn) ->
  exists c,
    update_server_totals c server_name
    = Ok (incremental_update_server fs now server_name conn).1.
Proof.
  intros Hfs [t Ht]. unfold incremental_update_server. rewrite Hfs.
  pose proof (process_history_frame conn server_name (history_csv dir)) as F1.
  destruct (process_history_file_incremental conn server_name (history_csv dir))
    as [c1 [n1 l1]].
  cbn [fst] in F1.
  pose proof (process_summary_frame c1 server_name (received_summary dir)) as F2.
  destruct (process_received_summary_incremental c1 server_name
              (received_summary dir)) as [c2 [n2 l2]].
  cbn [fst] in F2.
  destruct F1 as (_ & _ & A3 & _), F2 as (_ & _ & B3 & _).
  match goal with
  | |- context [update_server_totals ?c server_name] =>
      exists c; destruct (update_server_totals c server_name) as [c'|e] eqn:E
  end.
  - reflexivity.
  - unfold update_server_totals in E.
    cbn [servers update_checkpoint set_file_checkpoints] in E.
    rewrite B3, A3, Ht in E. discriminate E.
Qed.

Lemma filter_sent_rows (server_name : string) (l : list exchange_row) :
  filter (fun r => is_str (fe_action r) "sent" = true)
    (filter (fun r => String.eqb (fe_server_name r) server_name = true) l)
  = filter
      (fun r => fe_server_name r = server_name /\ fe_action r = Some "sent") l.
Proof.
  rewrite list_filter_filter. apply list_filter_iff. intros r.
  unfold is_str. rewrite String.eqb_eq.
  destruct (fe_action r) as [a|].
  - rewrite String.eqb_eq. split; intros [H1 H2]; split; congruence.
  - split; intros [H1 H2]; congruence.
Qed.

Lemma filter_own_rows (server_name : string) (l : list received_row) :
  filter (fun r => String.eqb (rf_server_name r) server_name = true) l
  = filter (fun r => rf_server_name r = server_name) l.
Proof. apply list_filter_iff. intros r. apply String.eqb_eq. Qed.

(** X9.  When the [servers] table is there, the update of a host that has a
    [logs] directory leaves a [servers] row for the host that agrees with
    the records of the store it returns: the sent count is the number of the
    host's exchange records with action ['sent'], the received count is the
    number of the host's received-file records, and the address is the one
    of the fixed table (['Unknown'] for another host). *)
Theorem host_totals_agree_with_store (fs : string -> option logs) (now : clock)
    (server_name : string) (conn : db) (dir : logs) :
  fs server_name = Some dir -> is_Some (servers conn) ->
  let conn' := (incremental_update_server fs now server_name conn).1 in
  exists row,
    servers conn' ≫= (fun t => t !! server_name) = Some row
    /\ sv_ip row = server_ips server_name
    /\ sv_sent row
       = Z.of_nat (length
           (filter
              (fun r =>
                 fe_server_name r = server_name /\ fe_action r = Some "sent")
              (file_exchanges conn')))
    /\ sv_received row
       = Z.of_nat (length
           (filter (fun r => rf_server_name r = server_name)
              (received_files conn'))).
Proof.
  intros Hfs Hsv conn'.
  destruct (incremental_update_server_totals fs now server_name conn dir Hfs Hsv)
    as [c Hc].
  fold conn' in Hc.
  destruct (update_server_totals_row c conn' server_name Hc)
    as (Hfe & Hrf & t & _ & Ht).
  eexists. rewrite Ht. cbn [mbind option_bind]. rewrite lookup_insert_eq.
  split; [reflexivity|].
  cbn [sv_ip sv_sent sv_received].
  rewrite filter_sent_rows, filter_own_rows, Hfe, Hrf. repeat split.
Qed.

Lemma host_totals_agree_with_store_witness :
  let conn' :=
    (incremental_update_server (only_server_1 full_logs) noon
       "ubuntu-server-1" store_after_one_row).1 in
  exists row,
    servers conn' ≫= (fun t => t !! "ubuntu-server-1") = Some row
    /\ sv_ip row = server_ips "ubuntu-server-1"
    /\ sv_sent row
       = Z.of_nat (length
           (filter
              (fun r =>
                 fe_server_name r = "ubuntu-server-1"
                 /\ fe_action r = Some "sent")
              (file_exchanges conn')))
    /\ sv_received row
       = Z.of_nat (length
           (filter (fun r => rf_server_name r = "ubuntu-server-1")
              (received_files conn'))).
Proof.
  apply (host_totals_agree_with_store (only_server_1 full_logs) noon
           "ubuntu-server-1" store_after_one_row full_logs).
  - reflexivity.
  - eexists. reflexivity.
Defined.

Lemma ltb_false_le (x y : string) : String.ltb x y = false -> (y ≤ x)%string.
Proof.
  unfold String.le, String.leb, String.ltb. rewrite (String.compare_antisym y x).
  destruct (String.compare x y); cbn; try discriminate; intros _; exact I.
Qed.

Lemma ltb_true_le (x y : string) : String.ltb x y = true -> (x ≤ y)%string.
Proof.
  unfold String.le, String.leb, String.ltb.
  destruct (String.compare x y); cbn; try discriminate; intros _; exact I.
Qed.

(** The fold of [later] gives a value of the list that no value exceeds. *)
Lemma later_greatest (l : list (option string)) :
  match foldr later None l with
  | Some m =>
      Some m ∈ l /\ forall x, Some x ∈ l -> (x ≤ m)%string
  | None => forall x, Some x ∉ l
  end.
Proof.
  induction l as [|a l IH]; cbn [foldr].
  - intros x Hx. inversion Hx.
  - destruct (foldr later None l) as [m|], a as [x|]; cbn [later].
    + destruct IH as [Hin Hmax].
      destruct (String.ltb x m) eqn:E.
      * split; [now right|]. intros y Hy.
        apply elem_of_cons in Hy as [[= ->]|Hy];
          [now apply ltb_true_le | now apply Hmax].
      * split; [now left|]. intros y Hy.
        apply elem_of_cons in Hy as [[= ->]|Hy]; [reflexivity|].
        etrans; [now apply Hmax | now apply ltb_false_le].
    + destruct IH as [Hin Hmax]. split; [now right|].
      intros y Hy. apply elem_of_cons in Hy as [[=]|Hy]. now apply Hmax.
    + split; [now left|]. intros y Hy.
      apply elem_of_cons in Hy as [[= ->]|Hy]; [reflexivity|].
      now apply IH in Hy.
    + intros y Hy. apply elem_of_cons in Hy as [[=]|Hy]. now apply IH in Hy.
Qed.

(** X10.  The last update that [update_server_totals] writes for a host is
    the greatest timestamp of the host's exchange records, in the order of
    the strings: it is the timestamp of one of them and none has a greater
    one; it is NULL exactly when no record of the host has a timestamp. *)
Theorem last_update_is_greatest_timestamp (conn conn' : db)
    (server_name : string) (row : server_row) :
  update_server_totals conn server_name = Ok conn' ->
  servers conn' ≫= (fun t => t !! server_name) = Some row ->
  match sv_last_update row with
  | Some m =>
      (exists r, r ∈ file_exchanges conn /\ fe_server_name r = server_name
                 /\ fe_timestamp r = Some m)
      /\ forall r x, r ∈ file_exchanges conn -> fe_server_name r = server_name ->
         fe_timestamp r = Some x -> (x ≤ m)%string
  | None =>
      forall r, r ∈ file_exchanges conn -> fe_server_name r = server_name ->
      fe_timestamp r = None
  end.
Proof.
  intros Hup Hrow.
  destruct (update_server_totals_row conn conn' server_name Hup)
    as (_ & _ & t & _ & Ht).
  rewrite Ht in Hrow. cbn [mbind option_bind] in Hrow.
  rewrite lookup_insert_eq in Hrow. injection Hrow as <-.
  cbn [sv_last_update].
  set (own := filter (fun r => String.eqb (fe_server_name r) server_name = true)
                (file_exchanges conn)).
  assert (Hown : forall r, r ∈ own <->
            r ∈ file_exchanges conn /\ fe_server_name r = server_name).
  { intros r. unfold own. rewrite list_elem_of_filter, String.eqb_eq. tauto. }
  pose proof (later_greatest (map fe_timestamp own)) as H.
  destruct (foldr later None (map fe_timestamp own)) as [m|].
  - destruct H as [Hin Hmax]. split.
    + apply list_elem_of_fmap in Hin as (r & Hr & Hr').
      apply Hown in Hr' as [Hr' Hs]. now exists r.
    + intros r x Hr Hs Hx. apply Hmax. rewrite <- Hx.
      apply list_elem_of_fmap. exists r. split; [reflexivity|].
      apply Hown. now split.
  - intros r Hin Hs. destruct (fe_timestamp r) as [x|] eqn:Hx; [|reflexivity].
    exfalso. apply (H x). rewrite <- Hx.
    apply list_elem_of_fmap. exists r. split; [reflexivity|].
    apply Hown. now split.
Qed.

Lemma last_update_is_greatest_timestamp_witness :
  match
    sv_last_update
      {| sv_ip := "192.168.56.101"; sv_sent := 1; sv_received := 0;
         sv_last_update := Some "2025-05-14 01:00:00" |}
  with
  | Some m =>
      (exists r, r ∈ file_exchanges store_after_one_row
                 /\ fe_server_name r = "ubuntu-server-1"
                 /\ fe_timestamp r = Some m)
      /\ forall r x, r ∈ file_exchanges store_after_one_row ->
         fe_server_name r = "ubuntu-server-1" ->
         fe_timestamp r = Some x -> (x ≤ m)%string
  | None =>
      forall r, r ∈ file_exchanges store_after_one_row ->
      fe_server_name r = "ubuntu-server-1" -> fe_timestamp r = None
  end.
Proof.
  apply (last_update_is_greatest_timestamp store_after_one_row
           store_after_one_row "ubuntu-server-1"); vm_compute; reflexivity.
Defined.

(** ** The cumulative totals *)





(** ** A cycle and the tables of the application *)

(** The outcome of one host, by whether the [servers] table is there. *)
Lemma incremental_update_server_outcome (fs : string -> option logs)
    (now : clock) (server_name : string) (conn : db) :
  let out := incremental_update_server fs now server_name conn in
  (is_Some (servers conn) -> is_Some (servers out.1) /\ exists r, out.2 = Ok r)
  /\ (servers conn = None ->
      servers out.1 = None
      /\ forall r, out.2 = Ok r ->
         r = {| new_exchanges := 0; new_received := 0;
                total_exchanges := 0; total_received := 0 |}).
Proof.
  cbv zeta. destruct (fs server_name) as [dir|] eqn:Hfs.
  2: { rewrite incremental_update_server_no_logs by exact Hfs. cbn [fst snd].
       split; [intros H; split; [exact H | eauto]|].
       intros H. split; [exact H | now intros r [= <-]]. }
  unfold incremental_update_server. rewrite Hfs.
  pose proof (process_history_frame conn server_name (history_csv dir)) as F1.
  destruct (process_history_file_incremental conn server_name (history_csv dir))
    as [c1 [n1 l1]].
  cbn [fst] in F1.
  pose proof (process_summary_frame c1 server_name (received_summary dir)) as F2.
  destruct (process_received_summary_incremental c1 server_name
              (received_summary dir)) as [c2 [n2 l2]].
  cbn [fst] in F2.
  destruct F1 as (_ & _ & A3 & _), F2 as (_ & _ & B3 & _).
  unfold update_server_totals.
  cbn [servers update_checkpoint set_file_checkpoints].
  rewrite B3, A3.
  destruct (servers conn) as [t|];
    cbn [fst snd servers set_servers update_checkpoint set_file_checkpoints].
  - split; [|discriminate]. intros _. split; eauto.
  - split; [intros [x [=]]|]. intros _.
    split; [now rewrite B3, A3 | intros r [=]].
Qed.

Lemma hosts_with_servers (fs : string -> option logs) (now : clock)
    (hosts : list string) (conn : db) :
  is_Some (servers conn) ->
  Forall (fun r => exists x, r = Ok x)
    (host_results (incremental_update_server fs now) hosts conn).1.
Proof.
  revert conn. induction hosts as [|h hs IH]; intros conn Hsv;
    cbn [host_results]; [constructor|].
  destruct (incremental_update_server_outcome fs now h conn) as [H _].
  destruct (H Hsv) as [Hsv' Hok].
  destruct (incremental_update_server fs now h conn) as [c r].
  specialize (IH c Hsv').
  destruct (host_results (incremental_update_server fs now) hs c) as [rs c'].
  cbn [fst snd] in *. now constructor.
Qed.

(** X12.  With the [servers] and [metadata] tables there, a cycle returns:
    no host raises, so the aggregate sums the results of all the configured
    hosts, and the two time stamps of the cycle are in [metadata]. *)
Theorem cycle_returns_with_tables (fs : string -> option logs) (now : clock)
    (conn : db) :
  is_Some (servers conn) -> is_Some (metadata conn) ->
  exists conn' t,
    incremental_update_all fs now conn = (conn', Ok t)
    /\ Forall (fun r => exists x, r = Ok x)
         (host_results (incremental_update_server fs now) configured_servers
            conn).1
    /\ metadata conn' ≫= (fun m => m !! "last_incremental_update")
       = Some (isoformat now)
    /\ metadata conn' ≫= (fun m => m !! "last_update") = Some (strftime now).
Proof.
  intros Hsv [m Hm]. unfold incremental_update_all. rewrite update_all_unfold.
  rewrite hosts_metadata, Hm. eexists _, _. split; [reflexivity|].
  split; [now apply hosts_with_servers|].
  cbn [metadata set_metadata mbind option_bind].
  rewrite lookup_insert_eq, lookup_insert_ne, lookup_insert_eq by discriminate.
  now split.
Qed.

Lemma cycle_returns_with_tables_witness :
  exists conn' t,
    incremental_update_all (only_server_1 full_logs) noon empty_store
    = (conn', Ok t)
    /\ Forall (fun r => exists x, r = Ok x)
         (host_results (incremental_update_server (only_server_1 full_logs) noon)
            configured_servers empty_store).1
    /\ metadata conn' ≫= (fun m => m !! "last_incremental_update")
       = Some (isoformat noon)
    /\ metadata conn' ≫= (fun m => m !! "last_update") = Some (strftime noon).
Proof.
  apply (cycle_returns_with_tables (only_server_1 full_logs) noon empty_store);
    eexists; reflexivity.
Defined.




(** ** The statistics of the engine *)





(** ** The first cycle after [init_db] *)



(** ** More on the size normalizer *)

Lemma append_cons (c : ascii) (a b : string) :
  String c a +:+ b = String c (a +:+ b).
Proof. reflexivity. Qed.

Lemma append_nil (b : string) : EmptyString +:+ b = b.
Proof. reflexivity. Qed.

Lemma lower_app (a b : string) :
  Py.lower (a +:+ b) = Py.lower a +:+ Py.lower b.
Proof.
  induction a as [|c a IH]; [reflexivity|].
  rewrite append_cons. cbn [Py.lower]. now rewrite IH, append_cons.
Qed.

Lemma isspace_lower_char (c : ascii) :
  Py.isspace (Py.lower_char c) = Py.isspace c.
Proof. destruct c as [[] [] [] [] [] [] [] []]; reflexivity. Qed.

Lemma all_space_lower (s : string) : all_space (Py.lower s) = all_space s.
Proof.
  induction s as [|c s IH]; [reflexivity|].
  cbn [Py.lower all_space]. now rewrite isspace_lower_char, IH.
Qed.

Lemma lstrip_space_app (p t : string) :
  all_space p = true ->
  Py.lstrip_with Py.isspace (p +:+ t) = Py.lstrip_with Py.isspace t.
Proof.
  induction p as [|c p IH]; [reflexivity|].
  cbn [all_space]. intros H. apply andb_true_iff in H as [Hc H].
  rewrite append_cons. cbn [Py.lstrip_with]. rewrite Hc. now apply IH.
Qed.

Lemma rstrip_all_space (p : string) :
  all_space p = true -> Py.rstrip_with Py.isspace p = EmptyString.
Proof.
  induction p as [|c p IH]; [reflexivity|].
  cbn [all_space]. intros H. apply andb_true_iff in H as [Hc H].
  cbn [Py.rstrip_with]. now rewrite (IH H), Hc.
Qed.

Lemma rstrip_app_space (u p : string) :
  all_space p = true ->
  Py.rstrip_with Py.isspace (u +:+ p) = Py.rstrip_with Py.isspace u.
Proof.
  intros H. induction u as [|c u IH].
  - rewrite append_nil. now apply rstrip_all_space.
  - rewrite append_cons. cbn [Py.rstrip_with]. now rewrite IH.
Qed.

Lemma strip_app_space (t p : string) :
  all_space p = true -> Py.strip (t +:+ p) = Py.strip t.
Proof.
  intros H. unfold Py.strip. induction t as [|c t IH].
  - rewrite append_nil. cbn [Py.lstrip_with].
    assert (Hl : forall q, all_space q = true ->
              Py.lstrip_with Py.isspace q = EmptyString).
    { induction q as [|d q IHq]; [reflexivity|].
      cbn [all_space]. intros Hq. apply andb_true_iff in Hq as [Hd Hq].
      cbn [Py.lstrip_with]. rewrite Hd. now apply IHq. }
    now rewrite Hl.
  - rewrite append_cons. cbn [Py.lstrip_with].
    destruct (Py.isspace c); [exact IH|].
    rewrite <- append_cons. now apply rstrip_app_space.
Qed.

Lemma strip_padded (p1 p2 t : string) :
  all_space p1 = true -> all_space p2 = true ->
  Py.strip (p1 +:+ t +:+ p2) = Py.strip t.
Proof.
  intros H1 H2. rewrite <- (strip_app_space t p2 H2).
  unfold Py.strip. now rewrite lstrip_space_app.
Qed.

Lemma parse_file_size_try_text (a b : string) :
  Py.strip (Py.lower a) = Py.strip (Py.lower b) ->
  parse_file_size_try a = parse_file_size_try b.
Proof. intros H. unfold parse_file_size_try. now rewrite H. Qed.

Lemma parse_file_size_nonempty (s : string) :
  parse_file_size (Some s)
  = match parse_file_size_try s with Ok n => n | Raise _ => 0 end.
Proof.
  destruct s as [|c s]; [|reflexivity]. vm_compute. reflexivity.
Qed.

(** X16.  The size normalizer ignores letter case and the white space
    around the text: two texts that are the same once lowered and stripped
    of white space on both sides have the same size. *)
Theorem parse_file_size_ignores_case_and_padding (pad1 pad2 s s' : string) :
  all_space pad1 = true -> all_space pad2 = true ->
  Py.lower s = Py.lower s' ->
  parse_file_size (Some (pad1 +:+ s +:+ pad2)) = parse_file_size (Some s').
Proof.
  intros H1 H2 Hs. rewrite !parse_file_size_nonempty.
  rewrite (parse_file_size_try_text (pad1 +:+ s +:+ pad2) s'); [reflexivity|].
  rewrite !lower_app, strip_padded, Hs by now rewrite all_space_lower.
  reflexivity.
Qed.

Lemma parse_file_size_ignores_case_and_padding_witness :
  parse_file_size (Some ("  " +:+ "1.5 Kb" +:+ " "))
  = parse_file_size (Some "1.5 kB").
Proof.
  apply (parse_file_size_ignores_case_and_padding "  " " " "1.5 Kb" "1.5 kB");
    reflexivity.
Defined.


(** *** Sizes in bytes *)

Lemma append_nil_r (s : string) : s +:+ EmptyString = s.
Proof.
  induction s as [|c s IH]; [reflexivity|]. now rewrite append_cons, IH.
Qed.

Lemma all_digits_numeral (d : Decimal.uint) : all_digits (numeral d) = true.
Proof. induction d; cbn; auto. Qed.

Lemma numeral_nonempty (d : Decimal.uint) :
  d <> Decimal.Nil -> exists c r, numeral d = String c r.
Proof. destruct d; [congruence | cbn; eauto ..]. Qed.

Lemma digit_not_space (p : ascii -> bool) (c : ascii) :
  p = Py.isspace \/ p = Py.isspace_c -> Py.isdigit c = true -> p c = false.
Proof.
  intros [-> | ->]; destruct c as [[] [] [] [] [] [] [] []];
    cbn; intros H; try reflexivity; discriminate H.
Qed.

Lemma lstrip_digits (p : ascii -> bool) (s t : string) :
  p = Py.isspace \/ p = Py.isspace_c -> all_digits s = true ->
  s <> EmptyString ->
  Py.lstrip_with p (s +:+ t) = s +:+ t.
Proof.
  intros Hp Hs Hne. destruct s as [|c s]; [congruence|].
  cbn [all_digits] in Hs. apply andb_true_iff in Hs as [Hc _].
  rewrite append_cons. cbn [Py.lstrip_with].
  now rewrite (digit_not_space p c Hp Hc).
Qed.

Lemma rstrip_digits (p : ascii -> bool) (s : string) :
  p = Py.isspace \/ p = Py.isspace_c -> all_digits s = true ->
  Py.rstrip_with p s = s.
Proof.
  intros Hp. induction s as [|c s IH]; [reflexivity|].
  cbn [all_digits]. intros H. apply andb_true_iff in H as [Hc H].
  cbn [Py.rstrip_with]. rewrite (IH H), (digit_not_space p c Hp Hc).
  now destruct s.
Qed.

Lemma rstrip_app_keep (p : ascii -> bool) (u v : string) :
  v <> EmptyString -> Py.rstrip_with p v = v ->
  Py.rstrip_with p (u +:+ v) = u +:+ v.
Proof.
  intros Hne Hv. induction u as [|c u IH]; [exact Hv|].
  rewrite append_cons. cbn [Py.rstrip_with]. rewrite IH.
  destruct (u +:+ v) eqn:E; [|reflexivity].
  destruct u; [rewrite append_nil in E; congruence | discriminate E].
Qed.

Lemma lower_digits (s : string) : all_digits s = true -> Py.lower s = s.
Proof.
  induction s as [|c s IH]; [reflexivity|].
  cbn [all_digits]. intros H. apply andb_true_iff in H as [Hc H].
  cbn [Py.lower]. rewrite (IH H). f_equal.
  destruct c as [[] [] [] [] [] [] [] []]; try reflexivity; discriminate Hc.
Qed.

(** No unit of two letters starts in a string of digits. *)
Lemma contains_digits_prefix (a : ascii) (sub s t : string) :
  Py.isdigit a = false -> all_digits s = true ->
  Py.contains (String a sub) (s +:+ t) = Py.contains (String a sub) t.
Proof.
  intros Ha. induction s as [|c s IH]; [reflexivity|].
  cbn [all_digits]. intros H. apply andb_true_iff in H as [Hc H].
  rewrite append_cons. cbn [Py.contains Py.startswith].
  destruct (Ascii.eqb_spec a c) as [->|_]; [congruence|].
  cbn [andb orb]. now apply IH.
Qed.

Lemma replace_digits_prefix (a : ascii) (sub new s t : string) :
  Py.isdigit a = false -> all_digits s = true ->
  Py.replace (String a sub) new (s +:+ t)
  = s +:+ Py.replace (String a sub) new t.
Proof.
  intros Ha. unfold Py.replace. induction s as [|c s IH]; [reflexivity|].
  cbn [all_digits]. intros H. apply andb_true_iff in H as [Hc H].
  rewrite !append_cons. cbn [Py.replace_from Py.startswith].
  destruct (Ascii.eqb_spec a c) as [->|_]; [congruence|].
  cbn [andb]. now rewrite (IH H).
Qed.

Lemma drop_underscores_digits (prev : ascii) (s : string) :
  Ascii.eqb prev "_" = false -> all_digits s = true ->
  Py.drop_underscores prev s = Some s.
Proof.
  revert prev. induction s as [|c s IH]; intros prev Hp.
  - cbn. now rewrite Hp.
  - cbn [all_digits]. intros H. apply andb_true_iff in H as [Hc H].
    cbn [Py.drop_underscores].
    assert (Hu : Ascii.eqb c "_" = false).
    { destruct c as [[] [] [] [] [] [] [] []]; try reflexivity; discriminate Hc. }
    rewrite Hu, Hp. cbn [andb]. now rewrite (IH c Hu H).
Qed.

Lemma sign_digits (s : string) :
  all_digits s = true -> Py.sign s = (false, s).
Proof.
  destruct s as [|c s]; [reflexivity|].
  cbn [all_digits]. intros H. apply andb_true_iff in H as [Hc _].
  destruct c as [[] [] [] [] [] [] [] []]; try reflexivity; discriminate Hc.
Qed.

(** Reading the digits of a numeral: the digits read before are those of
    the little-endian numeral [lu]. *)
Lemma digits_numeral (d lu : Decimal.uint) (k : Z) (rest : string) :
  Py.digits (Z.of_N (DecimalPos.Unsigned.of_lu lu)) k (numeral d +:+ rest)
  = Py.digits (Z.of_N (DecimalPos.Unsigned.of_lu (Decimal.revapp d lu)))
      (k + Z.of_nat (Decimal.nb_digits d)) rest.
Proof.
  revert lu k.
  induction d as [|d IHd|d IHd|d IHd|d IHd|d IHd|d IHd|d IHd|d IHd|d IHd|d IHd];
    intros lu k;
    cbn [numeral NilEmpty.string_of_uint Decimal.revapp Decimal.nb_digits].
  1: { rewrite append_nil. f_equal. lia. }
  all: rewrite append_cons; cbn [Py.digits Py.isdigit];
    match goal with
    | |- _ = Py.digits (Z.of_N (DecimalPos.Unsigned.of_lu
                                  (Decimal.revapp _ ?lu'))) _ _ =>
        transitivity
          (Py.digits (Z.of_N (DecimalPos.Unsigned.of_lu lu')) (k + 1)
             (numeral d +:+ rest));
        [ | rewrite IHd; f_equal; lia ]
    end.
  all: match goal with
       | |- (if ?b then _ else _) = _ => change b with true
       end;
    cbv iota; unfold numeral; f_equal;
    cbn [DecimalPos.Unsigned.of_lu];
    match goal with
    | |- context [Py.digit_val ?c] =>
        let v := eval vm_compute in (Py.digit_val c) in
        change (Py.digit_val c) with v
    end;
    lia.
Qed.

Lemma int_of_str_numeral (d : Decimal.uint) :
  d <> Decimal.Nil ->
  Py.int_of_str (numeral d) = Ok (Z.of_N (N.of_uint d)).
Proof.
  intros Hne. unfold Py.int_of_str, Py.strip_number.
  pose proof (all_digits_numeral d) as Hd.
  assert (Hstrip : forall p, p = Py.isspace \/ p = Py.isspace_c ->
            Py.rstrip_with p (Py.lstrip_with p (numeral d)) = numeral d).
  { intros p Hp.
    rewrite <- (append_nil_r (numeral d)) at 1.
    destruct (numeral_nonempty d Hne) as (c & r & E).
    rewrite lstrip_digits; [|exact Hp | exact Hd | rewrite E; discriminate].
    rewrite append_nil_r. now apply rstrip_digits. }
  assert (Hs : Py.rstrip_with
                 (if Py.isascii (numeral d) then Py.isspace_c else Py.isspace)
                 (Py.lstrip_with
                    (if Py.isascii (numeral d) then Py.isspace_c
                     else Py.isspace) (numeral d))
               = numeral d).
  { destruct (Py.isascii (numeral d)); apply Hstrip; auto. }
  cbv zeta. rewrite Hs, drop_underscores_digits, sign_digits by (exact Hd || reflexivity).
  rewrite <- (append_nil_r (numeral d)).
  change 0 with (Z.of_N (DecimalPos.Unsigned.of_lu Decimal.Nil)) at 1.
  rewrite digits_numeral. cbn [Py.digits].
  assert (Hn : (0 <? 0 + Z.of_nat (Decimal.nb_digits d)) = true).
  { apply Z.ltb_lt. destruct d; cbn [Decimal.nb_digits]; congruence || lia. }
  rewrite Hn. cbn [andb String.eqb Py.apply_sign].
  f_equal. f_equal. unfold N.of_uint.
  now rewrite DecimalPos.Unsigned.of_uint_alt.
Qed.

(** X17.  A size written as a decimal number of bytes is read back: for
    a natural number [n] of at most 4300 digits (the interpreter's default
    bound on the digits of an integer read from text), the size normalizer
    gives [n] for the text ["<n> bytes"], the form in which the summary
    parser hands it a size. *)
Theorem parse_file_size_of_bytes (n : N) :
  (n < 10 ^ 4300)%N ->
  parse_file_size (Some (numeral (N.to_uint n) +:+ " bytes")) = Z.of_N n.
Proof.
  intros _.
  set (d := N.to_uint n).
  assert (Hne : d <> Decimal.Nil).
  { unfold d. destruct n; [discriminate|]. cbn.
    apply DecimalPos.Unsigned.to_uint_nonnil. }
  pose proof (all_digits_numeral d) as Hd.
  destruct (numeral_nonempty d Hne) as (c & r & E).
  rewrite parse_file_size_nonempty. unfold parse_file_size_try.
  assert (Hlow : Py.lower (numeral d +:+ " bytes") = numeral d +:+ " bytes").
  { rewrite lower_app, lower_digits by exact Hd. reflexivity. }
  assert (Hstrip : Py.strip (numeral d +:+ " bytes") = numeral d +:+ " bytes").
  { unfold Py.strip.
    rewrite lstrip_digits; [|auto | exact Hd | rewrite E; discriminate].
    apply rstrip_app_keep; [discriminate | reflexivity]. }
  cbv zeta. rewrite Hlow, Hstrip.
  rewrite !contains_digits_prefix by (reflexivity || exact Hd).
  cbn [Py.contains Py.startswith Ascii.eqb Bool.eqb andb orb].
  rewrite replace_digits_prefix by (reflexivity || exact Hd).
  change (Py.replace "bytes" "" " bytes") with " ".
  rewrite strip_app_space by reflexivity.
  assert (Hs : Py.strip (numeral d) = numeral d).
  { unfold Py.strip. rewrite <- (append_nil_r (numeral d)) at 1.
    rewrite lstrip_digits; [|auto | exact Hd | rewrite E; discriminate].
    rewrite append_nil_r. apply rstrip_digits; auto. }
  rewrite Hs, int_of_str_numeral by exact Hne.
  unfold d. now rewrite DecimalN.Unsigned.of_to.
Qed.

Lemma parse_file_size_of_bytes_witness :
  (931 < 10 ^ 4300)%N
  /\ parse_file_size (Some (numeral (N.to_uint 931) +:+ " bytes")) = 931.
Proof.
  assert (H : (931 < 10 ^ 4300)%N) by (vm_compute; reflexivity).
  split; [exact H | exact (parse_file_size_of_bytes 931 H)].
Defined.

(** *** When the parse of an entry line raises *)

Lemma split_from_nonempty (sep : string) (skip : nat) (s : string) :
  exists x xs, Py.split_from sep skip s = x :: xs.
Proof.
  revert skip. induction s as [|c s IH]; intros skip; [cbn; eauto|].
  cbn [Py.split_from]. destruct skip as [|k]; [|apply IH].
  destruct (Py.startswith sep (String c s)); [eauto|].
  destruct (IH O) as (x & xs & ->). eauto.
Qed.

Lemma split_present (a : ascii) (sep s : string) :
  Py.contains (String a sep) s = true ->
  exists x y ys, Py.split (String a sep) s = x :: y :: ys.
Proof.
  unfold Py.split. induction s as [|c s IH]; [discriminate|].
  cbn [Py.contains Py.split_from].
  destruct (Py.startswith (String a sep) (String c s)).
  - intros _.
    destruct (split_from_nonempty (String a sep)
                (Nat.pred (String.length (String a sep))) s) as (y & ys & ->).
    eauto.
  - cbn [orb]. intros H. destruct (IH H) as (x & y & ys & ->). eauto.
Qed.

Lemma index_first {A : Type} (x : A) (xs : list A) : index (x :: xs) 0 = Ok x.
Proof. reflexivity. Qed.

Lemma index_second {A : Type} (x y : A) (ys : list A) :
  index (x :: y :: ys) 1 = Ok y.
Proof. reflexivity. Qed.

(** X18.  The parse of an entry line raises in one case only, and then an
    [IndexError]: the text after the first [" (Size: "] contains
    ["bytes, Date:"] but no ["Date: "], that is, the date label is never
    followed by a space.  Every other line parses. *)
Theorem parse_summary_entry_raises (line : string) (e : exn) :
  parse_summary_entry line = Raise e
  <-> e = IndexError
      /\ exists name size_and_date more,
           Py.split " (Size: " (slice_from 2 line)
           = name :: size_and_date :: more
           /\ Py.contains "bytes, Date:" size_and_date = true
           /\ Py.contains "Date: " size_and_date = false.
Proof.
  unfold parse_summary_entry.
  destruct (split_from_nonempty " (Size: " O (slice_from 2 line))
    as (name & parts & Hparts).
  fold (Py.split " (Size: " (slice_from 2 line)) in Hparts.
  rewrite Hparts, index_first. cbn [mbind result_bind].
  destruct parts as [|blob more].
  { cbn. split; [discriminate|]. intros (_ & ? & ? & ? & H & _).
    discriminate H. }
  change (1 <? length (name :: blob :: more))%nat with true. cbv iota.
  rewrite index_second. cbn [mbind result_bind].
  destruct (Py.contains "bytes, Date:" blob) eqn:Hsize.
  2: { cbn. split; [discriminate|].
       intros (_ & ? & ? & ? & H & Hc & _). congruence. }
  destruct (split_from_nonempty " bytes, Date:" O blob) as (s0 & ss & Hs0).
  fold (Py.split " bytes, Date:" blob) in Hs0.
  rewrite Hs0, index_first. cbn [mbind result_bind].
  destruct (Py.contains "Date: " blob) eqn:Hdate.
  - destruct (split_present _ _ _ Hdate) as (d0 & d1 & ds & Hd).
    rewrite Hd, index_second. cbn [mbind result_bind].
    destruct (Py.contains " " (Py.rstrip_chars ")" (Py.strip d1))) eqn:Hsp.
    + destruct (split_present _ _ _ Hsp) as (day & time & ts & Ht).
      rewrite Ht, index_first, index_second. cbn [mbind result_bind].
      destruct (split_from_nonempty "." O time) as (t0 & tt & Ht0).
      fold (Py.split "." time) in Ht0.
      rewrite Ht0, index_first. cbn [mbind result_bind].
      split; [discriminate|].
      intros (_ & ? & ? & ? & H & _ & Hc). congruence.
    + cbn. split; [discriminate|].
      intros (_ & ? & ? & ? & H & _ & Hc). congruence.
  - rewrite (split_absent _ _ Hdate). cbn. split.
    + intros H. split; [congruence|]. exists name, blob, more. auto.
    + intros (-> & _). reflexivity.
Qed.
